(** * Event statistics service: rolling one-hour aggregates

    A shallow embedding of the two parallel implementations of the
    windowed event store,

      - [EventService]  (event_service.py, served by the Flask app app.py),
      - [EventStore]    (app/storage.py, served by the FastAPI app app/main.py),

    together with the two POST /event handlers.

    Conventions.
      - An absolute time point is an integer number of microseconds (the
        resolution of Python's datetime); the clock readings that the code
        takes with [datetime.now(timezone.utc)] are explicit arguments, one
        per read, in the order the code reads them.
      - The deque of events is a list whose head is the left (oldest) end.
      - Event values are kept polymorphic: Python's [min], [max], [sum], [/]
        and [statistics.mean] only use the numeric protocol of their
        operands.  Two instances are provided: IEEE binary64 (what a Python
        float is) and exact rationals (what the arithmetic is meant to
        compute). *)

From Stdlib Require Import String Ascii.
From Stdlib Require Import ZArith List Bool Lia QArith Lqa.
From Stdlib Require Import Floats.
Import ListNotations.

Set Implicit Arguments.
Set Warnings "-register-all".
Local Open Scope Z_scope.

(* ------------------------------------------------------------------ *)
(** * Time points *)

Module Datetime.

(** An aware datetime: the instant it denotes (microseconds, UTC) and the
    UTC offset of its [tzinfo]. *)
Record aware := mk_aware { utc_instant : Z; utcoffset : Z }.

(** A datetime as a handler receives it: naive (wall-clock fields only) or
    aware. *)
Inductive datetime :=
  | Naive (wall : Z)
  | Aware (a : aware).

(** [timedelta(hours=1)] in microseconds. *)
Definition hour : Z := 3600 * 1000000.

(** [if timestamp.tzinfo is None:
       timestamp = timestamp.replace(tzinfo=timezone.utc)] *)
Definition ensure_aware (timestamp : datetime) : aware :=
  match timestamp with
  | Naive wall => mk_aware wall 0
  | Aware a => a
  end.

(** [datetime.now(timezone.utc)] for a clock that reads [now]. *)
Definition now_utc (now : Z) : aware := mk_aware now 0.

(** [d - timedelta(hours=1)] *)
Definition minus_hour (d : aware) : aware :=
  mk_aware (utc_instant d - hour) (utcoffset d).

(** Comparison of aware datetimes compares the instants. *)
Definition dt_lt (a b : aware) : bool := utc_instant a <? utc_instant b.
Definition dt_ge (a b : aware) : bool := utc_instant b <=? utc_instant a.

End Datetime.
Import Datetime.

(* ------------------------------------------------------------------ *)
(** * The numeric protocol of event values *)

(** What the aggregation code asks of a value: [<] (used by [min], and by
    [max] as [>] with the operands swapped), [+] (used by [sum]), true
    division, and the conversion of a Python int (the [0] that [sum] starts
    from, the [count] that the sum is divided by, [float(n)]) and, for the
    truth value of a number, [==].
    [num_int_fits n] is false when converting [n] raises OverflowError. *)
Class PyNumber (V : Type) := {
  num_lt : V -> V -> bool;
  num_eq : V -> V -> bool;
  num_add : V -> V -> V;
  num_div : V -> V -> V;
  num_of_int : Z -> V;
  num_int_fits : Z -> bool
}.

(** What [statistics.mean] asks of a value: [_exact_ratio] (absent for NaN
    and the infinities) and the conversion of an exact fraction back to the
    type of the data. *)
Class PyStatistics (V : Type) := {
  exact_ratio : V -> option Q;
  convert : Q -> V
}.

Section Builtins.
Context {V : Type} `{PyNumber V}.

(** [min(x :: rest)]: keep the running item, replace it when a later item
    is strictly smaller. *)
Definition py_min (x : V) (rest : list V) : V :=
  fold_left (fun cur item => if num_lt item cur then item else cur) rest x.

(** [max(x :: rest)]: replace the running item when a later item is
    strictly greater. *)
Definition py_max (x : V) (rest : list V) : V :=
  fold_left (fun cur item => if num_lt cur item then item else cur) rest x.

(** [sum(values)]: left to right, starting from the int [0]. *)
Definition py_sum (values : list V) : V :=
  fold_left num_add values (num_of_int 0).

(** [len(values)] as a Python int converted for the division. *)
Definition py_len (values : list V) : V :=
  num_of_int (Z.of_nat (length values)).

Context `{PyStatistics V}.

(** [statistics._sum]: the exact sum of the exact ratios when every value
    has one; otherwise the running sum (from the int [0]) of the values
    that have none. *)
Definition exact_sum (values : list V) : Q :=
  fold_left (fun acc v => match exact_ratio v with
                          | Some q => Qplus acc q
                          | None => acc
                          end) values (0 # 1)%Q.

Definition non_finite (values : list V) : list V :=
  filter (fun v => match exact_ratio v with Some _ => false | None => true end)
         values.

(** [statistics.mean(values)] on a non-empty list. *)
Definition statistics_mean (values : list V) : V :=
  match non_finite values with
  | [] => convert (Qdiv (exact_sum values) (inject_Z (Z.of_nat (length values))))
  | nf => num_div (py_sum nf) (py_len values)
  end.

End Builtins.

(* ------------------------------------------------------------------ *)
(** * Two instances of the numeric protocol *)

(** ** Exact rationals: arithmetic without rounding, overflow or NaN *)

Module Exact.

#[global] Instance number : PyNumber Q := {
  num_lt := fun a b => negb (Qle_bool b a);
  num_eq := Qeq_bool;
  num_add := Qplus;
  num_div := Qdiv;
  num_of_int := inject_Z;
  num_int_fits := fun _ => true
}.

#[global] Instance statistics : PyStatistics Q := {
  exact_ratio := fun q => Some q;
  convert := fun q => q
}.

End Exact.

(** ** IEEE binary64: the Python float *)

Module Float64.

(** [float(n)] for a Python int: the nearest double, ties to even. *)
Definition of_int (n : Z) : float :=
  SF2Prim (binary_normalize prec emax n 0 false).

(** The value of a finite double as a fraction ([float.as_integer_ratio]). *)
Definition ratio_of (s : bool) (m : positive) (e : Z) : Q :=
  let n := if s then Z.neg m else Z.pos m in
  match e with
  | Z0 => inject_Z n
  | Zpos p => inject_Z (n * 2 ^ Z.pos p)
  | Zneg p => Qmake n (2 ^ p)
  end.

Definition as_ratio (x : float) : option Q :=
  match Prim2SF x with
  | S754_zero _ => Some (0 # 1)%Q
  | S754_finite s m e => Some (ratio_of s m e)
  | S754_infinity _ | S754_nan => None
  end.

(** [float(Fraction(n, d))]: the quotient rounded once, to nearest, ties to
    even.  The quotient is computed with 64 guard bits below the leading
    one and a sticky bit for the remainder, then rounded by
    [binary_normalize]. *)
Definition of_ratio (q : Q) : float :=
  let n := Qnum q in
  let d := Z.pos (Qden q) in
  let a := Z.abs n in
  let k := Z.max 0 (64 + Z.log2 d - Z.log2 a) in
  let scaled := a * 2 ^ k in
  let sticky := if scaled mod d =? 0 then 0 else 1 in
  let m := 2 * (scaled / d) + sticky in
  SF2Prim (binary_normalize prec emax (if n <? 0 then - m else m) (- k - 1) false).

(** The operators of a float.  [+] is one rounded addition, so [py_sum] is
    the plain left-to-right float sum; from CPython 3.12 on the built-in
    [sum] adds a compensation term to a float total, which can change its
    last place.  The float sums evaluated below (a NaN, an overflow, small
    integers) come out the same either way. *)
#[global] Instance number : PyNumber float := {
  num_lt := PrimFloat.ltb;
  num_eq := PrimFloat.eqb;
  num_add := PrimFloat.add;
  num_div := PrimFloat.div;
  num_of_int := of_int;
  num_int_fits := fun n => is_finite (of_int n)
}.

#[global] Instance statistics : PyStatistics float := {
  exact_ratio := as_ratio;
  convert := of_ratio
}.

End Float64.

(* ------------------------------------------------------------------ *)
(** * The result of a query *)

(** The dictionary [{"count": .., "min": .., "max": .., "mean": ..}];
    [None] is Python's None. *)
Record stats (V : Type) := mk_stats {
  count : nat;
  min : option V;
  max : option V;
  mean : option V
}.

Definition no_stats {V : Type} : stats V := mk_stats 0 None None None.

(** A stored event: the tuple [(timestamp, value)]. *)
Definition event (V : Type) : Type := (aware * V)%type.

(** [while self._events and self._events[0][0] < cutoff_time:
        self._events.popleft()] *)
Fixpoint popleft_while {V : Type} (cutoff_time : aware) (events : list (event V))
  : list (event V) :=
  match events with
  | [] => []
  | e :: rest =>
      if dt_lt (fst e) cutoff_time then popleft_while cutoff_time rest
      else events
  end.

(** [[value for timestamp, value in events if timestamp >= cutoff_time]] *)
Definition recent_values {V : Type} (cutoff_time : aware) (events : list (event V))
  : list V :=
  map snd (filter (fun e => dt_ge (fst e) cutoff_time) events).

(* ------------------------------------------------------------------ *)
(** * Calls on the store *)

(** The two calls that both stores answer.  [now] is what the clock reads
    while the call runs; [Summary now] is the spec's [summary(now)]. *)
Inductive call (V : Type) :=
| Record (now : Z) (timestamp : datetime) (value : V)
| Summary (now : Z).
Arguments Summary {V} now.

Definition clock_of {V : Type} (c : call V) : Z :=
  match c with
  | Record now _ _ => now
  | Summary now => now
  end.

(** The events recorded by a sequence of calls, in arrival order. *)
Definition recorded {V : Type} (calls : list (call V)) : list (event V) :=
  flat_map (fun c => match c with
                     | Record _ timestamp value => [(ensure_aware timestamp, value)]
                     | Summary _ => []
                     end) calls.

(** Successive clock readings never go back. *)
Fixpoint nondecreasing (readings : list Z) : Prop :=
  match readings with
  | [] => True
  | a :: rest =>
      match rest with
      | [] => True
      | b :: _ => a <= b /\ nondecreasing rest
      end
  end.

(** An event is in the window of a query at [now]. *)
Definition in_window {V : Type} (now : Z) (e : event V) : bool :=
  now - hour <=? utc_instant (fst e).

(* ------------------------------------------------------------------ *)
(** * event_service.py *)

Module EventService.
Section WithValues.
Context {V : Type} `{PyNumber V}.

(** The state is the deque [self._events]. *)
Definition t := list (event V).

Definition init : t := [].

(** [TIME_WINDOW = timedelta(hours=1)];
    [cutoff_time = now - self.TIME_WINDOW] *)
Definition cutoff_time (now : Z) : aware := minus_hour (now_utc now).

Definition _cleanup_old_events (now : Z) (events : t) : t :=
  popleft_while (cutoff_time now) events.

(** [add_event]: [now] is the clock reading taken in the clean-up. *)
Definition add_event (now : Z) (timestamp : datetime) (value : V) (events : t) : t :=
  _cleanup_old_events now (events ++ [(ensure_aware timestamp, value)]).

(** [get_statistics]: [now1] is the clock reading taken in the clean-up,
    [now2] the one taken for the filter. *)
Definition get_statistics (now1 now2 : Z) (events : t) : stats V * t :=
  let events := _cleanup_old_events now1 events in
  let recent := recent_values (cutoff_time now2) events in
  (match recent with
   | [] => no_stats
   | x :: rest =>
       mk_stats (length recent)
                (Some (py_min x rest))
                (Some (py_max x rest))
                (Some (num_div (py_sum recent) (py_len recent)))
   end, events).

Definition clear (events : t) : t := [].

Definition get_event_count (events : t) : nat := length events.

(** One call, for its effect on the deque. *)
Definition step (events : t) (c : call V) : t :=
  match c with
  | Record now timestamp value => add_event now timestamp value events
  | Summary now => snd (get_statistics now now events)
  end.

Definition run (calls : list (call V)) (events : t) : t :=
  fold_left step calls events.

(** The operations of the service, [clear] included. *)
Inductive op :=
| Call (c : call V)
| Clear.

Definition step_op (events : t) (o : op) : t :=
  match o with
  | Call c => step events c
  | Clear => clear events
  end.

Definition run_ops (ops : list op) (events : t) : t :=
  fold_left step_op ops events.

Definition calls_of (ops : list op) : list (call V) :=
  flat_map (fun o => match o with Call c => [c] | Clear => [] end) ops.

End WithValues.
Arguments op V : clear implicits.
End EventService.

(* ------------------------------------------------------------------ *)
(** * app/storage.py *)

Module EventStore.
Section WithValues.
Context {V : Type} `{PyNumber V} `{PyStatistics V}.

Definition t := list (event V).

Definition init : t := [].

(** [store_event] only appends. *)
Definition store_event (timestamp : datetime) (value : V) (events : t) : t :=
  events ++ [(ensure_aware timestamp, value)].

(** [get_recent_stats]: one clock reading, taken before the lock. *)
Definition get_recent_stats (now : Z) (events : t) : stats V * t :=
  let cutoff_time := minus_hour (now_utc now) in
  let recent := recent_values cutoff_time events in
  let events := popleft_while cutoff_time events in
  (match recent with
   | [] => no_stats
   | x :: rest =>
       mk_stats (length recent)
                (Some (py_min x rest))
                (Some (py_max x rest))
                (Some (statistics_mean recent))
   end, events).

Definition step (events : t) (c : call V) : t :=
  match c with
  | Record _ timestamp value => store_event timestamp value events
  | Summary now => snd (get_recent_stats now events)
  end.

Definition run (calls : list (call V)) (events : t) : t :=
  fold_left step calls events.

End WithValues.
End EventStore.

(* ------------------------------------------------------------------ *)
(** * Request bodies *)

(** What [request.get_json()] returns: the Python object decoded from the
    body.  A dict is the list of its items, each key once. *)
Inductive json (V : Type) :=
| JNull
| JBool (b : bool)
| JInt (n : Z)
| JFloat (x : V)
| JStr (s : String.string)
| JList (items : list (json V))
| JDict (items : list (String.string * json V)).
Arguments JNull {V}.
Arguments JBool {V} b.
Arguments JInt {V} n.
Arguments JStr {V} s.

(** [d.get(key)] on the items of a dict. *)
Fixpoint dict_get {V : Type} (key : String.string)
  (items : list (String.string * json V)) : option (json V) :=
  match items with
  | [] => None
  | (k, v) :: rest => if String.eqb k key then Some v else dict_get key rest
  end.

(** [s.replace('Z', '+00:00')] *)
Fixpoint replace_Z (s : String.string) : String.string :=
  match s with
  | String.EmptyString => String.EmptyString
  | String.String c rest =>
      if Ascii.eqb c "Z"%char
      then String.append "+00:00"%string (replace_Z rest)
      else String.String c (replace_Z rest)
  end.

(** The outcome of an expression that may raise. *)
Inductive raised :=
| TypeError | ValueError | AttributeError | OverflowError | KeyError.

Inductive outcome (A : Type) :=
| Ok (a : A)
| Raise (e : raised).
Arguments Raise {A} e.

(* ------------------------------------------------------------------ *)
(** * app.py: the Flask handler of POST /event *)

Module FlaskApp.
Section WithValues.
Context {V : Type} `{PyNumber V}.

(** The two library parsers the handler calls on strings:
    [datetime.fromisoformat] and [float]; [None] is ValueError. *)
Variable fromisoformat : String.string -> option datetime.
Variable float_of_str : String.string -> option V.

(** The request as the handler sees it: [get_json()] returns an object, or
    raises (a body that is not JSON). *)
Inductive request :=
| Body (data : json V)
| Unreadable.

(** [not data] *)
Definition falsy (data : json V) : bool :=
  match data with
  | JNull => true
  | JBool b => negb b
  | JInt n => n =? 0
  | JFloat x => num_eq x (num_of_int 0)
  | JStr s => String.eqb s String.EmptyString
  | JList items => match items with [] => true | _ => false end
  | JDict items => match items with [] => true | _ => false end
  end.

(** [key in data] *)
Definition contains (key : String.string) (data : json V) : outcome bool :=
  match data with
  | JDict items =>
      Ok (match dict_get key items with Some _ => true | None => false end)
  | JList items =>
      Ok (existsb (fun item => match item with
                               | JStr s => String.eqb s key
                               | _ => false
                               end) items)
  | JStr s =>
      Ok (match String.index 0 key s with Some _ => true | None => false end)
  | JNull | JBool _ | JInt _ | JFloat _ => Raise TypeError
  end.

(** [data[key]], once [key in data] holds. *)
Definition subscript (key : String.string) (data : json V) : outcome (json V) :=
  match data with
  | JDict items =>
      match dict_get key items with
      | Some v => Ok v
      | None => Raise KeyError
      end
  | _ => Raise TypeError
  end.

(** [datetime.fromisoformat(x.replace('Z', '+00:00'))] *)
Definition parse_timestamp (x : json V) : outcome datetime :=
  match x with
  | JStr s =>
      match fromisoformat (replace_Z s) with
      | Some d => Ok d
      | None => Raise ValueError
      end
  | _ => Raise AttributeError
  end.

(** [float(x)] *)
Definition to_float (x : json V) : outcome V :=
  match x with
  | JFloat v => Ok v
  | JInt n => if num_int_fits n then Ok (num_of_int n) else Raise OverflowError
  | JBool b => Ok (num_of_int (if b then 1 else 0))
  | JStr s =>
      match float_of_str s with
      | Some v => Ok v
      | None => Raise ValueError
      end
  | JNull | JList _ | JDict _ => Raise TypeError
  end.

(** [post_event]: the status code of the response and the deque afterwards.
    [now] is the clock reading of [add_event].  The subscripts are evaluated
    inside the [try] blocks of the two conversions, so what they raise is
    matched against the same [except] clauses; anything else reaches the
    outer [except Exception]. *)
Definition post_event (now : Z) (req : request) (events : EventService.t (V:=V))
  : nat * EventService.t (V:=V) :=
  match req with
  | Unreadable => (500%nat, events)
  | Body data =>
      if falsy data then (400%nat, events) else
      match contains "timestamp" data with
      | Raise _ => (500%nat, events)
      | Ok false => (400%nat, events)
      | Ok true =>
      match contains "value" data with
      | Raise _ => (500%nat, events)
      | Ok false => (400%nat, events)
      | Ok true =>
      match subscript "timestamp" data with
      | Raise _ => (500%nat, events)
      | Ok x =>
      match parse_timestamp x with
      | Raise (ValueError | AttributeError) => (400%nat, events)
      | Raise _ => (500%nat, events)
      | Ok timestamp =>
      match subscript "value" data with
      | Raise (ValueError | TypeError) => (400%nat, events)
      | Raise _ => (500%nat, events)
      | Ok y =>
      match to_float y with
      | Raise (ValueError | TypeError) => (400%nat, events)
      | Raise _ => (500%nat, events)
      | Ok value => (201%nat, EventService.add_event now timestamp value events)
      end end end end end end
  end.

(** [get_statistics], the handler of GET /statistics: the service call
    cannot raise, so the answer is 200 with the dictionary.  [now1] and
    [now2] are the two clock readings of the service call. *)
Definition get_statistics (now1 now2 : Z) (events : EventService.t (V:=V))
  : nat * stats V * EventService.t (V:=V) :=
  let (stats, events) := EventService.get_statistics now1 now2 events in
  (200%nat, stats, events).

End WithValues.
End FlaskApp.

(* ------------------------------------------------------------------ *)
(** * app/models.py and app/main.py: the FastAPI handler of POST /event *)

Module Models.

(** The model [Event]. *)
Record Event (V : Type) := mk_event { timestamp : datetime; value : V }.

(** The range of a datetime, years 1 to 9999: the instants of
    0001-01-01T00:00:00 and of 9999-12-31T23:59:59.999999 UTC, in
    microseconds since the Unix epoch. *)
Definition datetime_min : Z := -62135596800000000.
Definition datetime_max : Z := 253402300799999999.

Definition representable (instant : Z) : bool :=
  (datetime_min <=? instant) && (instant <=? datetime_max).

(** The validator [ensure_utc_timezone]: a naive datetime is taken as UTC
    ([replace] cannot raise); an aware one is converted by
    [v.astimezone(timezone.utc)], which subtracts the offset and raises
    OverflowError when the UTC instant falls outside the range of a
    datetime (a first-year timestamp east of Greenwich, a last-year one
    west of it). *)
Definition ensure_utc_timezone (v : datetime) : outcome datetime :=
  match v with
  | Naive wall => Ok (Aware (mk_aware wall 0))
  | Aware a =>
      if representable (utc_instant a)
      then Ok (Aware (mk_aware (utc_instant a) 0))
      else Raise OverflowError
  end.

End Models.

Module FastApiApp.
Section WithValues.
Context {V : Type}.

(** The parsing of the two fields of the body that the framework does
    before [receive_event] is called; [None] is a validation error. *)
Variable parse_fields : json V -> option (datetime * V).

(** Building the [Event]: the fields, then the validator of [timestamp].
    [Ok None] is a validation error; what the validator raises is not one
    (only ValueError and AssertionError are) and leaves the model as it
    is. *)
Definition model_validate (body : json V) : outcome (option (Models.Event V)) :=
  match parse_fields body with
  | Some (timestamp, value) =>
      match Models.ensure_utc_timezone timestamp with
      | Ok utc => Ok (Some (Models.mk_event utc value))
      | Raise e => Raise e
      end
  | None => Ok None
  end.

(** [receive_event]: [storage.store_event] cannot raise, the status is the
    route's 200. *)
Definition receive_event (event : Models.Event V) (events : EventStore.t (V:=V))
  : nat * EventStore.t (V:=V) :=
  (200%nat,
   EventStore.store_event (Models.timestamp event) (Models.value event) events).

(** The route: a body that does not validate is answered 422 by the
    framework and the handler is not called; neither is it when the
    validator raises, an error that nothing handles and the server answers
    with 500. *)
Definition post_event (body : json V) (events : EventStore.t (V:=V))
  : nat * EventStore.t (V:=V) :=
  match model_validate body with
  | Ok (Some event) => receive_event event events
  | Ok None => (422%nat, events)
  | Raise _ => (500%nat, events)
  end.

Context `{PyNumber V} `{PyStatistics V}.

(** An aggregate as the response renders it: JSON is written with
    [allow_nan=False], so a NaN or an infinity (a value without an exact
    ratio) raises ValueError; [None] is written as null. *)
Definition renders (x : option V) : bool :=
  match x with
  | None => true
  | Some v => match exact_ratio v with Some _ => true | None => false end
  end.

(** GET /statistics: [storage.get_recent_stats] cannot raise and has
    trimmed the deque when the dictionary is rendered; the answer is the
    route's 200 with the dictionary, or 500 when an aggregate does not
    render. *)
Definition get_statistics (now : Z) (events : EventStore.t (V:=V))
  : nat * option (stats V) * EventStore.t (V:=V) :=
  let (stats, events) := EventStore.get_recent_stats now events in
  if renders (min stats) && renders (max stats) && renders (mean stats)
  then (200%nat, Some stats, events)
  else (500%nat, None, events).

End WithValues.
End FastApiApp.

(* ------------------------------------------------------------------ *)
(** * app/utils.py *)

Module Utils.
Section WithValues.
Context {V : Type} `{PyNumber V}.

(** [a >= b] on datetimes: between a naive and an aware one the comparison
    raises TypeError. *)
Definition datetime_ge (a b : datetime) : outcome bool :=
  match a, b with
  | Naive x, Naive y => Ok (y <=? x)
  | Aware x, Aware y => Ok (dt_ge x y)
  | _, _ => Raise TypeError
  end.

(** [d - timedelta(hours=1)] keeps [d] naive or aware. *)
Definition sub_hour (d : datetime) : datetime :=
  match d with
  | Naive wall => Naive (wall - hour)
  | Aware a => Aware (minus_hour a)
  end.

(** [if reference_time is None: reference_time = datetime.utcnow()]:
    [utcnow] is what the clock reads, and [datetime.utcnow()] is naive. *)
Definition or_utcnow (utcnow : Z) (reference_time : option datetime) : datetime :=
  match reference_time with
  | None => Naive utcnow
  | Some d => d
  end.

Definition is_within_last_hour (utcnow : Z) (timestamp : datetime)
  (reference_time : option datetime) : outcome bool :=
  let reference_time := or_utcnow utcnow reference_time in
  let cutoff_time := sub_hour reference_time in
  datetime_ge timestamp cutoff_time.

(** [[value for ts, value in events if ts >= cutoff_time]]: the first
    comparison that raises ends the comprehension. *)
Fixpoint values_since (cutoff_time : datetime) (events : list (datetime * V))
  : outcome (list V) :=
  match events with
  | [] => Ok []
  | (ts, value) :: rest =>
      match datetime_ge ts cutoff_time with
      | Raise e => Raise e
      | Ok keep =>
          match values_since cutoff_time rest with
          | Raise e => Raise e
          | Ok values => Ok (if keep then value :: values else values)
          end
      end
  end.

Definition filter_recent_events (utcnow : Z) (events : list (datetime * V))
  (reference_time : option datetime) : outcome (list V) :=
  let reference_time := or_utcnow utcnow reference_time in
  let cutoff_time := sub_hour reference_time in
  values_since cutoff_time events.

Definition calculate_statistics (values : list V) : stats V :=
  match values with
  | [] => no_stats
  | x :: rest =>
      mk_stats (length values) (Some (py_min x rest)) (Some (py_max x rest))
               (Some (num_div (py_sum values) (py_len values)))
  end.

End WithValues.
End Utils.

(* ------------------------------------------------------------------ *)
(** * Vocabulary of the properties *)

Unset Implicit Arguments.

(** An event is stale for a cutoff: its timestamp is strictly older. *)
Definition stale {V : Type} (c : aware) (e : event V) : Prop :=
  utc_instant (fst e) < utc_instant c.

(** The stored events that a query at [now] includes. *)
Definition included {V : Type} (now : Z) (events : list (event V)) : list (event V) :=
  filter (in_window now) events.

(** The window with the upper bound the spec's testable property gives it:
    the closed interval from [now - 1h] to [now]. *)
Definition in_closed_window {V : Type} (now : Z) (e : event V) : bool :=
  (now - hour <=? utc_instant (fst e)) && (utc_instant (fst e) <=? now).

(** [min <= mean <= max] on a result, for a given [<=]; false when one of
    the three is absent. *)
Definition min_mean_max_ordered {V : Type} (le : V -> V -> bool) (r : stats V)
  : bool :=
  match min r, mean r, max r with
  | Some lo, Some avg, Some hi => le lo avg && le avg hi
  | _, _, _ => false
  end.

(** The sum of a list of rationals, as the spec words it. *)
Definition Qsum (values : list Q) : Q := fold_right Qplus 0%Q values.

(** The shape of the dictionary that both stores build from the list of
    recent values, given how the mean is computed. *)
Definition aggregate {V : Type} `{PyNumber V} (mean_of : list V -> V)
  (recent : list V) : stats V :=
  match recent with
  | [] => no_stats
  | x :: rest =>
      mk_stats (length recent) (Some (py_min x rest)) (Some (py_max x rest))
               (Some (mean_of recent))
  end.

(** [sum(values) / count], the mean of event_service.py. *)
Definition sum_over_count {V : Type} `{PyNumber V} (values : list V) : V :=
  num_div (py_sum values) (py_len values).

(** A [record] appends the event and then trims the front: what is gone is
    stale for the cutoff of [now], and the oldest event left, if any, is
    not. *)
Definition appends_then_evicts {V : Type}
  (record : Z -> datetime -> V -> list (event V) -> list (event V))
  (now : Z) (timestamp : datetime) (value : V) (events : list (event V)) : Prop :=
  exists evicted,
    events ++ [(ensure_aware timestamp, value)]
      = evicted ++ record now timestamp value events
    /\ Forall (stale (EventService.cutoff_time now)) evicted
    /\ match record now timestamp value events with
       | [] => True
       | oldest :: _ => ~ stale (EventService.cutoff_time now) oldest
       end.

(** ** POST /event *)

(** The two library parsers at the one string each that the sample request
    below holds, where they return what [datetime.fromisoformat] and
    [float] return: the instant of 2025-06-26T14:30:00 UTC (microseconds
    since the Unix epoch) and the double 12.5. *)
Definition sample_fromisoformat (s : string) : option datetime :=
  if String.eqb s "2025-06-26T14:30:00+00:00"
  then Some (Aware (mk_aware 1750948200000000 0))
  else None.

Definition sample_float_of_str (s : string) : option float :=
  if String.eqb s "12.5" then Some 12.5%float else None.

(** The value field of a JSON object is missing or is not a JSON number. *)
Definition value_not_a_number {V : Type} (items : list (string * json V)) : Prop :=
  match dict_get "value" items with
  | Some (JInt _) | Some (JFloat _) => False
  | _ => True
  end.

(** The Flask handler turns a JSON object down: the timestamp is missing,
    or is not a string that [fromisoformat] parses, or the value is
    missing, or [float] raises TypeError or ValueError on it. *)
Definition turned_down {V : Type} `{PyNumber V}
  (fromisoformat : string -> option datetime) (float_of_str : string -> option V)
  (items : list (string * json V)) : Prop :=
  dict_get "timestamp" items = None
  \/ (exists x, dict_get "timestamp" items = Some x
                /\ forall d, FlaskApp.parse_timestamp fromisoformat x <> Ok d)
  \/ dict_get "value" items = None
  \/ (exists y, dict_get "value" items = Some y
                /\ (FlaskApp.to_float float_of_str y = Raise TypeError
                    \/ FlaskApp.to_float float_of_str y = Raise ValueError)).

(** ** Arrival order and time order *)

(** The timestamps of the events never go back along the list: arrival
    order is time order. *)
Definition arrival_ordered {V : Type} (events : list (event V)) : Prop :=
  nondecreasing (map (fun e => utc_instant (fst e)) events).

(** A stored event as the pair that app/utils.py is given. *)
Definition as_pair {V : Type} (e : event V) : datetime * V :=
  (Aware (fst e), snd e).

(** A datetime is naive. *)
Definition is_naive (d : datetime) : bool :=
  match d with
  | Naive _ => true
  | Aware _ => false
  end.

(** A stored event with its timestamp converted to UTC, as the validator
    of app/models.py would have it. *)
Definition in_utc {V : Type} (e : event V) : event V :=
  (mk_aware (utc_instant (fst e)) 0, snd e).

(* ------------------------------------------------------------------ *)
(** * Eviction and the window filter *)

Section Eviction.
Context {V : Type}.
Implicit Types (events evicted : list (event V)) (c : aware).

Lemma popleft_while_split c events :
  exists evicted,
    events = evicted ++ popleft_while c events /\ Forall (stale c) evicted.
Proof.
  induction events as [|e rest IH]; simpl.
  - exists []. split; [reflexivity | constructor].
  - unfold dt_lt. destruct (Z.ltb_spec (utc_instant (fst e)) (utc_instant c)) as [Hlt|Hge].
    + destruct IH as (ev & Heq & Hst). exists (e :: ev). split.
      * simpl. now rewrite <- Heq.
      * constructor; assumption.
    + exists []. split; [reflexivity | constructor].
Qed.

Lemma popleft_while_head c events e rest :
  popleft_while c events = e :: rest -> utc_instant c <= utc_instant (fst e).
Proof.
  induction events as [|e0 rest0 IH]; simpl; [discriminate|].
  unfold dt_lt. destruct (Z.ltb_spec (utc_instant (fst e0)) (utc_instant c)) as [Hlt|Hge].
  - exact IH.
  - intros Heq. injection Heq as -> _. exact Hge.
Qed.

Lemma popleft_while_fresh c events e rest :
  events = e :: rest -> utc_instant c <= utc_instant (fst e) ->
  popleft_while c events = events.
Proof.
  intros -> Hge. simpl. unfold dt_lt.
  destruct (Z.ltb_spec (utc_instant (fst e)) (utc_instant c)); [lia | reflexivity].
Qed.

Lemma popleft_while_idem c events :
  popleft_while c (popleft_while c events) = popleft_while c events.
Proof.
  destruct (popleft_while c events) as [|e rest] eqn:E; [reflexivity|].
  eapply popleft_while_fresh; [reflexivity|].
  eapply popleft_while_head; eassumption.
Qed.

Lemma popleft_while_stale c events :
  Forall (stale c) events -> popleft_while c events = [].
Proof.
  induction 1 as [|e rest He _ IH]; simpl; [reflexivity|].
  unfold dt_lt. unfold stale in He.
  destruct (Z.ltb_spec (utc_instant (fst e)) (utc_instant c)); [exact IH | lia].
Qed.

Lemma recent_values_app c events1 events2 :
  recent_values c (events1 ++ events2)
  = recent_values c events1 ++ recent_values c events2.
Proof. unfold recent_values. now rewrite filter_app, map_app. Qed.

Lemma recent_values_stale c c' evicted :
  utc_instant c <= utc_instant c' ->
  Forall (stale c) evicted -> recent_values c' evicted = [].
Proof.
  intros Hle. induction 1 as [|e rest He _ IH]; [reflexivity|].
  unfold recent_values in *. simpl. unfold dt_ge at 1. unfold stale in He.
  destruct (Z.leb_spec (utc_instant c') (utc_instant (fst e))); [lia | exact IH].
Qed.

(** What front trimming at an earlier cutoff removes, the filter of a later
    cutoff would not have kept. *)
Lemma recent_values_popleft c c' events :
  utc_instant c <= utc_instant c' ->
  recent_values c' (popleft_while c events) = recent_values c' events.
Proof.
  intros Hle. destruct (popleft_while_split c events) as (ev & Heq & Hst).
  rewrite Heq at 2. rewrite recent_values_app.
  now rewrite (recent_values_stale c c' ev Hle Hst).
Qed.

Lemma recent_values_window now events :
  recent_values (EventService.cutoff_time now) events
  = map snd (filter (in_window now) events).
Proof. reflexivity. Qed.

Lemma cutoff_instant now :
  utc_instant (EventService.cutoff_time now) = now - hour.
Proof. reflexivity. Qed.

End Eviction.

(* ------------------------------------------------------------------ *)
(** * The aggregates in exact arithmetic *)

Section ExactAggregates.
Local Open Scope Q_scope.

Lemma py_min_in {V : Type} `{PyNumber V} (x : V) rest : In (py_min x rest) (x :: rest).
Proof.
  unfold py_min. revert x. induction rest as [|y rest IH]; intros x; simpl.
  - now left.
  - destruct (num_lt y x).
    + right. apply IH.
    + destruct (IH x) as [Hx|Hx]; [now left | now right; right].
Qed.

Lemma py_max_in {V : Type} `{PyNumber V} (x : V) rest : In (py_max x rest) (x :: rest).
Proof.
  unfold py_max. revert x. induction rest as [|y rest IH]; intros x; simpl.
  - now left.
  - destruct (num_lt x y).
    + right. apply IH.
    + destruct (IH x) as [Hx|Hx]; [now left | now right; right].
Qed.

Lemma exact_lt_spec (a b : Q) : reflect (a < b) (num_lt a b).
Proof.
  unfold num_lt, Exact.number. destruct (Qle_bool b a) eqn:E; simpl; constructor.
  - apply Qle_bool_iff in E. now apply Qle_not_lt.
  - apply Qnot_le_lt. intros Hle. apply Qle_bool_iff in Hle. congruence.
Qed.

Lemma py_min_le (x : Q) rest v : In v (x :: rest) -> py_min x rest <= v.
Proof.
  unfold py_min. revert x v.
  induction rest as [|y rest IH]; intros x v Hin; cbn [fold_left].
  - destruct Hin as [<-|[]]. apply Qle_refl.
  - destruct (exact_lt_spec y x) as [Hlt|Hge].
    + destruct Hin as [<-|Hin].
      * eapply Qle_trans; [apply IH; now left | now apply Qlt_le_weak].
      * apply IH. exact Hin.
    + destruct Hin as [<-|[<-|Hin]].
      * apply IH. now left.
      * eapply Qle_trans; [apply IH; now left | now apply Qnot_lt_le].
      * apply IH. now right.
Qed.

Lemma py_max_ge (x : Q) rest v : In v (x :: rest) -> v <= py_max x rest.
Proof.
  unfold py_max. revert x v.
  induction rest as [|y rest IH]; intros x v Hin; cbn [fold_left].
  - destruct Hin as [<-|[]]. apply Qle_refl.
  - destruct (exact_lt_spec x y) as [Hlt|Hge].
    + destruct Hin as [<-|Hin].
      * apply Qle_trans with y; [now apply Qlt_le_weak | apply IH; now left].
      * apply IH. exact Hin.
    + destruct Hin as [<-|[<-|Hin]].
      * apply IH. now left.
      * apply Qle_trans with x; [now apply Qnot_lt_le | apply IH; now left].
      * apply IH. now right.
Qed.

Lemma fold_left_Qplus (values : list Q) (a : Q) :
  fold_left Qplus values a == a + Qsum values.
Proof.
  revert a. induction values as [|v rest IH]; intros a; simpl.
  - ring.
  - rewrite IH. ring.
Qed.

Lemma py_sum_exact (values : list Q) : py_sum values == Qsum values.
Proof. unfold py_sum. rewrite fold_left_Qplus. simpl. ring. Qed.

(** On rationals [statistics.mean] is the quotient that the other store
    computes itself. *)
Lemma statistics_mean_exact (values : list Q) :
  statistics_mean values = num_div (py_sum values) (py_len values).
Proof.
  unfold statistics_mean.
  assert (Hnf : non_finite values = []).
  { unfold non_finite. induction values as [|v rest IH]; simpl; auto. }
  rewrite Hnf. reflexivity.
Qed.

End ExactAggregates.

(* ------------------------------------------------------------------ *)
(** * [min] and [max] under a strict order *)

(** [min] and [max] only need [<] to be irreflexive and transitive, which it
    is on rationals and on floats, NaN included (a NaN is below nothing and
    nothing is below it). *)
Section StrictOrder.
Context {V : Type} `{PyNumber V}.
Hypothesis lt_irrefl : forall x : V, num_lt x x = false.
Hypothesis lt_trans :
  forall x y z : V, num_lt x y = true -> num_lt y z = true -> num_lt x z = true.

Lemma min_loop_below (rest : list V) : forall cur,
  let final := fold_left (fun cur item => if num_lt item cur then item else cur)
                         rest cur in
  final = cur \/ num_lt final cur = true.
Proof.
  induction rest as [|y rest IH]; intros cur; cbn [fold_left].
  - now left.
  - destruct (num_lt y cur) eqn:Hy.
    + right. destruct (IH y) as [-> | Hlt]; [exact Hy | eauto].
    + apply IH.
Qed.

Lemma max_loop_above (rest : list V) : forall cur,
  let final := fold_left (fun cur item => if num_lt cur item then item else cur)
                         rest cur in
  final = cur \/ num_lt cur final = true.
Proof.
  induction rest as [|y rest IH]; intros cur; cbn [fold_left].
  - now left.
  - destruct (num_lt cur y) eqn:Hy.
    + right. destruct (IH y) as [-> | Hlt]; [exact Hy | eauto].
    + apply IH.
Qed.

Lemma py_min_least (x : V) rest v :
  In v (x :: rest) -> num_lt v (py_min x rest) = false.
Proof.
  unfold py_min. revert x.
  assert (Hkeep : forall rest cur,
             num_lt v cur = false ->
             num_lt v (fold_left (fun cur item => if num_lt item cur then item else cur)
                                 rest cur) = false).
  { intros rest' cur Hv. destruct (min_loop_below rest' cur) as [-> | Hlt]; [exact Hv|].
    destruct (num_lt v (fold_left _ rest' cur)) eqn:E; [|reflexivity].
    rewrite (lt_trans _ _ _ E Hlt) in Hv. discriminate. }
  induction rest as [|y rest IH]; intros x Hin.
  - destruct Hin as [<- | []]. apply lt_irrefl.
  - cbn [fold_left]. destruct Hin as [<- | [<- | Hin]].
    + apply Hkeep. destruct (num_lt y x) eqn:Hy; [|apply lt_irrefl].
      destruct (num_lt x y) eqn:Hx; [|reflexivity].
      rewrite <- (lt_irrefl x). symmetry. eauto.
    + apply Hkeep. destruct (num_lt y x) eqn:Hy; [apply lt_irrefl | exact Hy].
    + apply IH. now right.
Qed.

Lemma py_max_greatest (x : V) rest v :
  In v (x :: rest) -> num_lt (py_max x rest) v = false.
Proof.
  unfold py_max. revert x.
  assert (Hkeep : forall rest cur,
             num_lt cur v = false ->
             num_lt (fold_left (fun cur item => if num_lt cur item then item else cur)
                               rest cur) v = false).
  { intros rest' cur Hv. destruct (max_loop_above rest' cur) as [-> | Hlt]; [exact Hv|].
    destruct (num_lt (fold_left _ rest' cur) v) eqn:E; [|reflexivity].
    rewrite (lt_trans _ _ _ Hlt E) in Hv. discriminate. }
  induction rest as [|y rest IH]; intros x Hin.
  - destruct Hin as [<- | []]. apply lt_irrefl.
  - cbn [fold_left]. destruct Hin as [<- | [<- | Hin]].
    + apply Hkeep. destruct (num_lt x y) eqn:Hy; [|apply lt_irrefl].
      destruct (num_lt y x) eqn:Hx; [|reflexivity].
      rewrite <- (lt_irrefl x). symmetry. eauto.
    + apply Hkeep. destruct (num_lt x y) eqn:Hy; [apply lt_irrefl | exact Hy].
    + apply IH. now right.
Qed.

End StrictOrder.

(** The comparison of doubles is a strict order. *)
Lemma SFcompare_irrefl (x : spec_float) : SFcompare x x <> Some Lt.
Proof.
  destruct x as [s|s| |s m e]; simpl; try destruct s; try discriminate.
  - rewrite Z.compare_refl. fold (Pos.compare m m). rewrite Pos.compare_refl.
    discriminate.
  - rewrite Z.compare_refl. fold (Pos.compare m m). rewrite Pos.compare_refl.
    discriminate.
Qed.

Lemma SFcompare_Lt_trans (x y z : spec_float) :
  SFcompare x y = Some Lt -> SFcompare y z = Some Lt -> SFcompare x z = Some Lt.
Proof.
  destruct x as [sx|sx| |sx mx ex], y as [sy|sy| |sy my ey], z as [sz|sz| |sz mz ez];
    simpl; try discriminate;
    try destruct sx; try destruct sy; try destruct sz; simpl;
    try discriminate; try reflexivity.
  all: fold (Pos.compare mx my); fold (Pos.compare my mz); fold (Pos.compare mx mz).
  all: destruct (Z.compare_spec ex ey), (Z.compare_spec ey ez), (Z.compare_spec ex ez);
    try lia; try discriminate; try reflexivity.
  all: destruct (Pos.compare_spec mx my), (Pos.compare_spec my mz),
         (Pos.compare_spec mx mz);
    simpl; try lia; try discriminate; try reflexivity.
Qed.

Lemma float_lt_irrefl (x : float) : num_lt x x = false.
Proof.
  cbn [num_lt Float64.number]. rewrite ltb_spec. unfold SFltb.
  pose proof (SFcompare_irrefl (Prim2SF x)) as Hx.
  destruct (SFcompare (Prim2SF x) (Prim2SF x)) as [[]|]; congruence.
Qed.

Lemma float_lt_trans (x y z : float) :
  num_lt x y = true -> num_lt y z = true -> num_lt x z = true.
Proof.
  cbn [num_lt Float64.number]. rewrite !ltb_spec. unfold SFltb.
  intros Hxy Hyz.
  rewrite (SFcompare_Lt_trans (Prim2SF x) (Prim2SF y) (Prim2SF z)); [reflexivity| |].
  - destruct (SFcompare (Prim2SF x) (Prim2SF y)) as [[]|]; congruence.
  - destruct (SFcompare (Prim2SF y) (Prim2SF z)) as [[]|]; congruence.
Qed.

(* ------------------------------------------------------------------ *)
(** * What a query returns *)

Section Queries.
Context {V : Type} `{PyNumber V} `{PyStatistics V}.
Implicit Types (events : list (event V)).

Lemma get_statistics_fst now1 now2 events :
  fst (EventService.get_statistics now1 now2 events)
  = aggregate sum_over_count
      (recent_values (EventService.cutoff_time now2)
         (popleft_while (EventService.cutoff_time now1) events)).
Proof.
  unfold EventService.get_statistics, EventService._cleanup_old_events, aggregate.
  simpl. now destruct (recent_values _ _).
Qed.

Lemma get_statistics_snd now1 now2 events :
  snd (EventService.get_statistics now1 now2 events)
  = popleft_while (EventService.cutoff_time now1) events.
Proof. reflexivity. Qed.

Lemma get_recent_stats_fst now events :
  fst (EventStore.get_recent_stats now events)
  = aggregate statistics_mean (recent_values (EventService.cutoff_time now) events).
Proof.
  unfold EventStore.get_recent_stats, aggregate. simpl.
  now destruct (recent_values _ _).
Qed.

Lemma get_recent_stats_snd now events :
  snd (EventStore.get_recent_stats now events)
  = popleft_while (EventService.cutoff_time now) events.
Proof. reflexivity. Qed.

(** With the clean-up reading not after the filter reading, the service
    aggregates the values of the in-window events of the deque it was
    given. *)
Lemma get_statistics_included now1 now2 events :
  now1 <= now2 ->
  fst (EventService.get_statistics now1 now2 events)
  = aggregate sum_over_count (map snd (included now2 events)).
Proof.
  intros Hle. rewrite get_statistics_fst, recent_values_popleft.
  - reflexivity.
  - rewrite !cutoff_instant. lia.
Qed.

Lemma get_recent_stats_included now events :
  fst (EventStore.get_recent_stats now events)
  = aggregate statistics_mean (map snd (included now events)).
Proof. now rewrite get_recent_stats_fst. Qed.

Lemma popleft_while_Forall (P : event V -> Prop) c events :
  Forall P events -> Forall P (popleft_while c events).
Proof.
  intros HP. destruct (popleft_while_split c events) as (ev & Heq & _).
  rewrite Heq in HP. now apply Forall_app in HP.
Qed.

Lemma recent_values_none now events :
  Forall (fun e => in_window now e = false) events ->
  recent_values (EventService.cutoff_time now) events = [].
Proof.
  induction 1 as [|e rest He _ IH]; [reflexivity|].
  rewrite recent_values_window in *. simpl. now rewrite He.
Qed.

End Queries.

(* ------------------------------------------------------------------ *)
(** * Properties of a single call *)

(** C1, as amended.  With the values taken as exact numbers (rationals:
    no NaN, no infinity, no rounding), for every deque and every query
    instant a summary aggregates the values of exactly the stored events
    whose timestamp is at or after [now - 1h] ([now2] is the reading that
    fixes the window; the service reads the clock once more, before, for
    its clean-up).  The count is their number, and when it is positive, min
    is an included value below all included values, max an included value
    above all of them, and mean the sum of the included values divided by
    the count.  Both stores. *)
Theorem summary_aggregates_window
  (events : list (event Q)) (now1 now2 : Z) (r : stats Q) :
  now1 <= now2 ->
  r = fst (EventService.get_statistics now1 now2 events)
  \/ r = fst (EventStore.get_recent_stats now2 events) ->
  let values := map snd (included now2 events) in
  count r = length values /\
  ((0 < count r)%nat ->
   exists lo hi avg,
     min r = Some lo /\ max r = Some hi /\ mean r = Some avg /\
     In lo values /\ (forall v, In v values -> (lo <= v)%Q) /\
     In hi values /\ (forall v, In v values -> (v <= hi)%Q) /\
     (avg == Qsum values / inject_Z (Z.of_nat (count r)))%Q).
Proof.
  intros Hle Hr values.
  assert (Hagg : r = aggregate sum_over_count values).
  { destruct Hr as [-> | ->].
    - now apply get_statistics_included.
    - rewrite get_recent_stats_included. fold values.
      unfold aggregate. destruct values as [|x rest]; [reflexivity|].
      now rewrite statistics_mean_exact. }
  subst r. destruct values as [|x rest] eqn:E; simpl.
  - split; [reflexivity | lia].
  - split; [reflexivity | intros _].
    exists (py_min x rest), (py_max x rest), (sum_over_count (x :: rest)).
    repeat split.
    + apply py_min_in.
    + apply py_min_le.
    + apply py_max_in.
    + apply py_max_ge.
    + unfold sum_over_count, py_len. cbn [num_div Exact.number].
      rewrite py_sum_exact. reflexivity.
Qed.

Lemma summary_aggregates_window_witness :
  let events := [(mk_aware 0 0, 10%Q); (mk_aware hour 0, 20%Q);
                 (mk_aware (hour + 5) 0, 60%Q)] in
  let r := fst (EventService.get_statistics (2 * hour) (2 * hour) events) in
  count r = 2%nat /\
  ((0 < count r)%nat ->
   exists lo hi avg,
     min r = Some lo /\ max r = Some hi /\ mean r = Some avg /\
     In lo [20%Q; 60%Q] /\ (forall v, In v [20%Q; 60%Q] -> (lo <= v)%Q) /\
     In hi [20%Q; 60%Q] /\ (forall v, In v [20%Q; 60%Q] -> (v <= hi)%Q) /\
     (avg == Qsum [20%Q; 60%Q] / inject_Z (Z.of_nat (count r)))%Q).
Proof.
  intros events r.
  apply (summary_aggregates_window events (2 * hour) (2 * hour) r).
  - lia.
  - left. reflexivity.
Defined.

(** C1, as stated, fails on the floats that the stores hold.  With a NaN
    stored before 1.0 and 3.0, all in the window, both stores return NaN as
    min and as max, which is neither at or below 1.0 nor at or above 3.0.
    And on two copies of the largest double the mean of the store, which
    [statistics.mean] rounds once from the exact mean, is not the float sum
    of the values divided by the count, which overflows. *)
Lemma nan_min_is_not_smallest :
  (let events := [(mk_aware 0 0, nan); (mk_aware 1 0, 1%float);
                  (mk_aware 2 0, 3%float)] in
   let service := fst (EventService.get_statistics 5 5 events) in
   let store := fst (EventStore.get_recent_stats 5 events) in
   map snd (included 5 events) = [nan; 1%float; 3%float]
   /\ min service = Some nan /\ max service = Some nan
   /\ min store = Some nan /\ max store = Some nan
   /\ (nan <=? 1)%float = false /\ (3 <=? nan)%float = false)
  /\
  (let big := 0x1.fffffffffffffp+1023%float in
   let events := [(mk_aware 0 0, big); (mk_aware 0 0, big)] in
   mean (fst (EventStore.get_recent_stats 0 events)) = Some big
   /\ sum_over_count (map snd (included 0 events)) = infinity).
Proof. vm_compute. repeat split. Qed.

(** On floats, where the order is partial, min and max are still included
    values with no included value strictly below, respectively above,
    them; when a NaN is stored this does not single out a smallest
    value. *)
Lemma float_summary_min_max
  (events : list (event float)) (now1 now2 : Z) (r : stats float) :
  now1 <= now2 ->
  r = fst (EventService.get_statistics now1 now2 events)
  \/ r = fst (EventStore.get_recent_stats now2 events) ->
  let values := map snd (included now2 events) in
  count r = length values /\
  ((0 < count r)%nat ->
   exists lo hi,
     min r = Some lo /\ max r = Some hi /\
     In lo values /\ (forall v, In v values -> (v <? lo)%float = false) /\
     In hi values /\ (forall v, In v values -> (hi <? v)%float = false)).
Proof.
  intros Hle Hr values.
  assert (Hagg : exists mean_of, r = aggregate mean_of values).
  { destruct Hr as [-> | ->].
    - exists sum_over_count. now apply get_statistics_included.
    - exists statistics_mean. now rewrite get_recent_stats_included. }
  destruct Hagg as (mean_of & ->). destruct values as [|x rest] eqn:E; simpl.
  - split; [reflexivity | lia].
  - split; [reflexivity | intros _].
    exists (py_min x rest), (py_max x rest). repeat split.
    + apply py_min_in.
    + apply (py_min_least float_lt_irrefl float_lt_trans).
    + apply py_max_in.
    + apply (py_max_greatest float_lt_irrefl float_lt_trans).
Qed.

(** C2, as amended.  [EventService.add_event] appends the event at the
    back and then trims the front while the oldest stored event is older
    than [now - 1h], stopping at the first event in the window or on the
    empty deque.  [EventStore.store_event] appends the event and evicts
    nothing. *)
Theorem record_appends_service_evicts (V : Type) :
  (forall now timestamp (value : V) events,
     appends_then_evicts EventService.add_event now timestamp value events)
  /\
  (forall timestamp (value : V) events,
     EventStore.store_event timestamp value events
     = events ++ [(ensure_aware timestamp, value)]).
Proof.
  split; [|reflexivity].
  intros now timestamp value events. unfold appends_then_evicts.
  unfold EventService.add_event, EventService._cleanup_old_events.
  set (all := events ++ [(ensure_aware timestamp, value)]).
  destruct (popleft_while_split (EventService.cutoff_time now) all)
    as (evicted & Heq & Hst).
  exists evicted. repeat split; try assumption.
  destruct (popleft_while _ all) as [|oldest rest] eqn:E; [exact I|].
  apply popleft_while_head in E. unfold stale. lia.
Qed.

(** C2, as stated, fails for [EventStore.store_event]: with an event at
    instant 0 stored, a record at two hours keeps it at the front of the
    deque. *)
Lemma store_event_does_not_evict :
  EventStore.store_event (Aware (mk_aware (2 * hour) 0)) 5%Q
    [(mk_aware 0 0, 1%Q)]
  = [(mk_aware 0 0, 1%Q); (mk_aware (2 * hour) 0, 5%Q)]
  /\
  ~ appends_then_evicts (fun _ => EventStore.store_event)
      (2 * hour) (Aware (mk_aware (2 * hour) 0)) 5%Q [(mk_aware 0 0, 1%Q)].
Proof.
  split; [reflexivity|].
  intros (evicted & _ & _ & Hhead). simpl in Hhead.
  apply Hhead. unfold stale. simpl. unfold hour. lia.
Qed.

(** C4.  A summary on a deque that holds no in-window event, the empty
    deque included, returns count 0 with min, max and mean absent.  Both
    stores, any value type. *)
Theorem summary_without_recent_events
  (V : Type) (N : PyNumber V) (S : PyStatistics V)
  (events : list (event V)) (now1 now2 : Z) :
  Forall (fun e => in_window now2 e = false) events ->
  fst (EventService.get_statistics now1 now2 events) = mk_stats 0 None None None
  /\ fst (EventStore.get_recent_stats now2 events) = mk_stats 0 None None None.
Proof.
  intros Hnone. split.
  - rewrite get_statistics_fst, recent_values_none; [reflexivity|].
    now apply popleft_while_Forall.
  - rewrite get_recent_stats_fst, recent_values_none; [reflexivity | assumption].
Qed.

Lemma summary_without_recent_events_witness :
  let events := [(mk_aware 0 0, 100%Q)] in
  fst (EventService.get_statistics (2 * hour) (2 * hour) events)
    = mk_stats 0 None None None
  /\ fst (EventStore.get_recent_stats (2 * hour) events) = mk_stats 0 None None None.
Proof.
  intros events.
  apply (summary_without_recent_events Q _ _ events (2 * hour) (2 * hour)).
  repeat constructor.
Defined.

(** C6.  Two consecutive summaries at the same instant, with no record in
    between, return the same dictionary, although the first one may have
    evicted entries.  For the service the clean-up readings of the two calls
    may be any readings not after the query instant. *)
Theorem summary_twice_same_result
  (V : Type) (N : PyNumber V) (S : PyStatistics V)
  (events : list (event V)) (now : Z) (clean1 clean2 : Z) :
  clean1 <= now -> clean2 <= now ->
  fst (EventService.get_statistics clean2 now
         (snd (EventService.get_statistics clean1 now events)))
  = fst (EventService.get_statistics clean1 now events)
  /\
  fst (EventStore.get_recent_stats now
         (snd (EventStore.get_recent_stats now events)))
  = fst (EventStore.get_recent_stats now events).
Proof.
  intros H1 H2. split.
  - rewrite get_statistics_snd, !get_statistics_fst.
    rewrite !recent_values_popleft; try reflexivity;
      rewrite !cutoff_instant; lia.
  - rewrite get_recent_stats_snd, !get_recent_stats_fst.
    rewrite recent_values_popleft; [reflexivity | lia].
Qed.

Lemma summary_twice_same_result_witness :
  let events := [(mk_aware 0 0, 1%Q); (mk_aware (2 * hour) 0, 2%Q)] in
  fst (EventService.get_statistics (2 * hour) (2 * hour)
         (snd (EventService.get_statistics (2 * hour) (2 * hour) events)))
  = fst (EventService.get_statistics (2 * hour) (2 * hour) events)
  /\
  fst (EventStore.get_recent_stats (2 * hour)
         (snd (EventStore.get_recent_stats (2 * hour) events)))
  = fst (EventStore.get_recent_stats (2 * hour) events).
Proof.
  intros events.
  apply (summary_twice_same_result Q _ _ events (2 * hour) (2 * hour) (2 * hour));
    lia.
Defined.

(* ------------------------------------------------------------------ *)
(** * Sequences of calls *)

Lemma nondecreasing_cons a readings :
  nondecreasing (a :: readings) ->
  Forall (fun b => a <= b) readings /\ nondecreasing readings.
Proof.
  revert a. induction readings as [|b rest IH]; intros a Hnd.
  - split; [constructor | exact I].
  - destruct Hnd as [Hab Hrest]. split; [|exact Hrest].
    constructor; [exact Hab|].
    destruct (IH b Hrest) as [Hall _].
    eapply Forall_impl; [|exact Hall]. simpl. intros c Hc. lia.
Qed.

Lemma nondecreasing_head_last a readings bound :
  nondecreasing (a :: readings ++ [bound]) -> a <= bound.
Proof.
  intros Hnd. apply nondecreasing_cons in Hnd. destruct Hnd as [Hall _].
  rewrite Forall_forall in Hall. apply Hall, in_or_app. right. now left.
Qed.

Lemma stale_later {V : Type} (now bound : Z) (evicted : list (event V)) :
  now <= bound ->
  Forall (stale (EventService.cutoff_time now)) evicted ->
  Forall (stale (EventService.cutoff_time bound)) evicted.
Proof.
  intros Hle. apply Forall_impl. intros e. unfold stale.
  rewrite !cutoff_instant. lia.
Qed.

Lemma stale_not_in_window {V : Type} (now : Z) (evicted : list (event V)) :
  Forall (stale (EventService.cutoff_time now)) evicted ->
  Forall (fun e => in_window now e = false) evicted.
Proof.
  apply Forall_impl. intros e. unfold stale, in_window.
  rewrite cutoff_instant. intros Hlt. apply Z.leb_gt. exact Hlt.
Qed.

Lemma included_app {V : Type} now (a b : list (event V)) :
  included now (a ++ b) = included now a ++ included now b.
Proof. apply filter_app. Qed.

Lemma included_none {V : Type} now (evicted : list (event V)) :
  Forall (fun e => in_window now e = false) evicted -> included now evicted = [].
Proof.
  induction 1 as [|e rest He _ IH]; [reflexivity|].
  unfold included in *. simpl. now rewrite He.
Qed.

Lemma recorded_app {V : Type} (calls1 calls2 : list (call V)) :
  recorded (calls1 ++ calls2) = recorded calls1 ++ recorded calls2.
Proof. apply flat_map_app. Qed.

(** Any store whose calls trim the front by the cutoff of their own clock
    reading keeps, along a run, a suffix of what was recorded; under a
    clock that never goes back, what is gone is stale for every later
    cutoff. *)
Section Runs.
Context {V : Type}.
Variable step : list (event V) -> call V -> list (event V).
Hypothesis step_spec :
  forall events c, exists evicted,
    events ++ recorded [c] = evicted ++ step events c
    /\ Forall (stale (EventService.cutoff_time (clock_of c))) evicted.

Lemma run_suffix calls : forall events,
  exists evicted, events ++ recorded calls = evicted ++ fold_left step calls events.
Proof.
  induction calls as [|c calls IH]; intros events.
  - exists []. simpl. now rewrite app_nil_r.
  - destruct (step_spec events c) as (ev1 & Heq1 & _).
    destruct (IH (step events c)) as (ev2 & Heq2).
    exists (ev1 ++ ev2). simpl fold_left.
    change (c :: calls) with ([c] ++ calls).
    rewrite recorded_app, app_assoc, Heq1.
    rewrite <- !app_assoc. now rewrite Heq2.
Qed.

Lemma run_evicts_stale calls : forall events bound,
  nondecreasing (map clock_of calls ++ [bound]) ->
  exists evicted,
    events ++ recorded calls = evicted ++ fold_left step calls events
    /\ Forall (stale (EventService.cutoff_time bound)) evicted.
Proof.
  induction calls as [|c calls IH]; intros events bound Hnd.
  - exists []. simpl. rewrite app_nil_r. split; [reflexivity | constructor].
  - destruct (step_spec events c) as (ev1 & Heq1 & Hst1).
    simpl in Hnd. pose proof (nondecreasing_head_last _ _ _ Hnd) as Hle.
    apply nondecreasing_cons in Hnd. destruct Hnd as [_ Hnd].
    destruct (IH (step events c) bound Hnd) as (ev2 & Heq2 & Hst2).
    exists (ev1 ++ ev2). split.
    + simpl fold_left. change (c :: calls) with ([c] ++ calls).
      rewrite recorded_app, app_assoc, Heq1.
      rewrite <- !app_assoc. now rewrite Heq2.
    + apply Forall_app. split; [|exact Hst2].
      eapply stale_later; eassumption.
Qed.

Lemma run_keeps_window calls later :
  nondecreasing (map clock_of calls ++ [later]) ->
  exists evicted,
    recorded calls = evicted ++ fold_left step calls []
    /\ Forall (fun e => in_window later e = false) evicted
    /\ included later (fold_left step calls []) = included later (recorded calls).
Proof.
  intros Hnd. destruct (run_evicts_stale calls [] later Hnd) as (ev & Heq & Hst).
  simpl in Heq. apply stale_not_in_window in Hst.
  exists ev. repeat split; try assumption.
  rewrite Heq at 1. rewrite included_app, (included_none _ _ Hst). reflexivity.
Qed.

End Runs.

Lemma service_step_spec {V : Type} `{PyNumber V} (events : list (event V)) (c : call V) :
  exists evicted,
    events ++ recorded [c] = evicted ++ EventService.step events c
    /\ Forall (stale (EventService.cutoff_time (clock_of c))) evicted.
Proof.
  destruct c as [now timestamp value | now]; simpl.
  - apply popleft_while_split.
  - rewrite app_nil_r. apply popleft_while_split.
Qed.

Lemma store_step_spec {V : Type} `{PyNumber V} `{PyStatistics V} (events : list (event V)) (c : call V) :
  exists evicted,
    events ++ recorded [c] = evicted ++ EventStore.step events c
    /\ Forall (stale (EventService.cutoff_time (clock_of c))) evicted.
Proof.
  destruct c as [now timestamp value | now]; simpl.
  - exists []. split; [reflexivity | constructor].
  - rewrite app_nil_r. apply popleft_while_split.
Qed.

Lemma count_aggregate {V : Type} `{PyNumber V} (mean_of : list V -> V) recent :
  count (aggregate mean_of recent) = length recent.
Proof. now destruct recent. Qed.

(** C3, as amended.  After any sequence of calls made under a clock that
    never goes back, a summary at [now] counts the recorded events whose
    timestamp is at or after [now - 1h]; there is no upper bound, an event
    timestamped after [now] is counted.  Both stores. *)
Theorem summary_counts_recorded_since_cutoff
  (V : Type) (N : PyNumber V) (S : PyStatistics V)
  (calls : list (call V)) (now : Z) :
  nondecreasing (map clock_of calls ++ [now]) ->
  count (fst (EventService.get_statistics now now (EventService.run calls [])))
  = length (included now (recorded calls))
  /\
  count (fst (EventStore.get_recent_stats now (EventStore.run calls [])))
  = length (included now (recorded calls)).
Proof.
  intros Hnd. split.
  - destruct (run_keeps_window _ service_step_spec calls now Hnd)
      as (_ & _ & _ & Hinc).
    rewrite get_statistics_included by lia.
    rewrite count_aggregate, length_map.
    exact (f_equal (@length _) Hinc).
  - destruct (run_keeps_window _ store_step_spec calls now Hnd)
      as (_ & _ & _ & Hinc).
    rewrite get_recent_stats_included.
    rewrite count_aggregate, length_map.
    exact (f_equal (@length _) Hinc).
Qed.

Lemma summary_counts_recorded_since_cutoff_witness :
  let calls := [Record 0 (Aware (mk_aware 0 0)) 1%Q;
                Record hour (Naive 5) 2%Q;
                Record (2 * hour) (Aware (mk_aware (2 * hour) 0)) 3%Q] in
  count (fst (EventService.get_statistics (2 * hour + 7) (2 * hour + 7)
                (EventService.run calls [])))
  = length (included (2 * hour + 7) (recorded calls))
  /\
  count (fst (EventStore.get_recent_stats (2 * hour + 7) (EventStore.run calls [])))
  = length (included (2 * hour + 7) (recorded calls)).
Proof.
  intros calls.
  apply (summary_counts_recorded_since_cutoff Q _ _ calls (2 * hour + 7)).
  simpl. unfold hour. lia.
Defined.

(** C3, as stated, fails: one event recorded at clock 0 with a timestamp
    ten microseconds ahead of the clock is counted by a summary at 0,
    although no recorded event lies in the closed interval from [0 - 1h]
    to 0. *)
Lemma future_event_is_counted :
  let calls := [Record 0 (Aware (mk_aware 10 0)) 1%Q] in
  count (fst (EventService.get_statistics 0 0 (EventService.run calls []))) = 1%nat
  /\ count (fst (EventStore.get_recent_stats 0 (EventStore.run calls []))) = 1%nat
  /\ length (filter (in_closed_window 0) (recorded calls)) = 0%nat.
Proof. repeat split. Qed.

(** C8.  Under a clock that never goes back, what the calls have evicted is
    out of the window of every later query: the deque is the recorded
    sequence minus a front part none of whose events is in the window at
    [later], so the in-window events of the deque are those of everything
    recorded, and a summary returns what it would return had nothing ever
    been evicted.  Backdated timestamps only make the trimming stop early.
    Both stores. *)
Theorem eviction_keeps_later_windows
  (V : Type) (N : PyNumber V) (S : PyStatistics V)
  (calls : list (call V)) (later : Z) :
  nondecreasing (map clock_of calls ++ [later]) ->
  (exists evicted,
     recorded calls = evicted ++ EventService.run calls []
     /\ Forall (fun e => in_window later e = false) evicted
     /\ included later (EventService.run calls []) = included later (recorded calls)
     /\ fst (EventService.get_statistics later later (EventService.run calls []))
        = fst (EventService.get_statistics later later (recorded calls)))
  /\
  (exists evicted,
     recorded calls = evicted ++ EventStore.run calls []
     /\ Forall (fun e => in_window later e = false) evicted
     /\ included later (EventStore.run calls []) = included later (recorded calls)
     /\ fst (EventStore.get_recent_stats later (EventStore.run calls []))
        = fst (EventStore.get_recent_stats later (recorded calls))).
Proof.
  intros Hnd. split.
  - destruct (run_keeps_window _ service_step_spec calls later Hnd)
      as (ev & Heq & Hout & Hinc).
    exists ev. repeat split; try assumption.
    rewrite !get_statistics_included by lia.
    exact (f_equal (fun l => aggregate sum_over_count (map snd l)) Hinc).
  - destruct (run_keeps_window _ store_step_spec calls later Hnd)
      as (ev & Heq & Hout & Hinc).
    exists ev. repeat split; try assumption.
    rewrite !get_recent_stats_included.
    exact (f_equal (fun l => aggregate statistics_mean (map snd l)) Hinc).
Qed.

Lemma eviction_keeps_later_windows_witness :
  let calls := [Record 0 (Aware (mk_aware 0 0)) 1%Q;
                Record (2 * hour) (Aware (mk_aware (hour + 1) 0)) 2%Q;
                Summary (2 * hour + 1);
                Record (2 * hour + 2) (Aware (mk_aware 3 0)) 4%Q] in
  included (2 * hour + 3) (EventService.run calls [])
  = included (2 * hour + 3) (recorded calls).
Proof.
  intros calls.
  destruct (eviction_keeps_later_windows Q _ _ calls (2 * hour + 3))
    as [(ev & _ & _ & Hinc & _) _].
  - simpl. unfold hour. lia.
  - exact Hinc.
Defined.

(** C9.  After any sequence of record, summary and clear operations the
    deque of the service is a contiguous suffix of the arrival-ordered
    sequence of all events ever recorded, and so is the deque of the store
    after any sequence of record and summary calls: events enter at the
    back, leave at the front, and are neither reordered nor changed. *)
Theorem stored_is_suffix_of_recorded
  (V : Type) (N : PyNumber V) (S : PyStatistics V) :
  (forall ops : list (EventService.op V),
     exists evicted,
       recorded (EventService.calls_of ops) = evicted ++ EventService.run_ops ops [])
  /\
  (forall calls : list (call V),
     exists evicted, recorded calls = evicted ++ EventStore.run calls []).
Proof.
  split.
  - intros ops.
    enough (Hgen : forall before events,
               exists evicted,
                 (before ++ events) ++ recorded (EventService.calls_of ops)
                 = evicted ++ EventService.run_ops ops events)
      by exact (Hgen [] []).
    induction ops as [|o ops IH]; intros before events.
    + exists before. simpl. now rewrite app_nil_r.
    + destruct o as [c|]; simpl EventService.run_ops.
      * destruct (service_step_spec events c) as (ev1 & Heq1 & _).
        destruct (IH (before ++ ev1) (EventService.step events c)) as (ev2 & Heq2).
        exists ev2. rewrite <- Heq2.
        change (EventService.calls_of (EventService.Call c :: ops))
          with ([c] ++ EventService.calls_of ops).
        rewrite recorded_app, <- !app_assoc. f_equal.
        rewrite !app_assoc. f_equal. exact Heq1.
      * destruct (IH (before ++ events) []) as (ev2 & Heq2).
        exists ev2. rewrite app_nil_r in Heq2. exact Heq2.
  - intros calls. exact (run_suffix _ store_step_spec calls []).
Qed.

(* ------------------------------------------------------------------ *)
(** * Order of the aggregates *)

Section ExactOrder.
Local Open Scope Q_scope.

Lemma inject_length_cons (v : Q) (values : list Q) :
  inject_Z (Z.of_nat (length (v :: values)))
  == 1 + inject_Z (Z.of_nat (length values)).
Proof.
  cbn [length]. rewrite Nat2Z.inj_succ, <- Z.add_1_l, inject_Z_plus. reflexivity.
Qed.

Lemma Qsum_bounds (lo hi : Q) (values : list Q) :
  (forall v, In v values -> lo <= v /\ v <= hi) ->
  inject_Z (Z.of_nat (length values)) * lo <= Qsum values
  /\ Qsum values <= inject_Z (Z.of_nat (length values)) * hi.
Proof.
  induction values as [|v rest IH]; intros Hb.
  - cbn [length Z.of_nat Qsum fold_right]. change (inject_Z 0) with 0.
    split; lra.
  - destruct IH as [IHlo IHhi]; [intros w Hw; apply Hb; now right|].
    destruct (Hb v (or_introl eq_refl)) as [Hlo Hhi].
    rewrite inject_length_cons. cbn [Qsum fold_right]. fold (Qsum rest).
    split; nra.
Qed.

Lemma inject_length_pos (v : Q) (values : list Q) :
  0 < inject_Z (Z.of_nat (length (v :: values))).
Proof.
  change 0 with (inject_Z 0). rewrite <- Zlt_Qlt. cbn [length]. lia.
Qed.

(** In exact arithmetic the mean of a non-empty list lies between the
    values that [min] and [max] pick. *)
Lemma exact_mean_between (x : Q) (rest : list Q) :
  py_min x rest <= sum_over_count (x :: rest)
  /\ sum_over_count (x :: rest) <= py_max x rest.
Proof.
  destruct (Qsum_bounds (py_min x rest) (py_max x rest) (x :: rest)) as [Hlo Hhi].
  { intros v Hv. split; [now apply py_min_le | now apply py_max_ge]. }
  pose proof (inject_length_pos x rest) as Hpos.
  unfold sum_over_count, py_len. cbn [num_div num_of_int Exact.number].
  rewrite py_sum_exact. split.
  - apply Qle_shift_div_l; [exact Hpos|]. rewrite Qmult_comm. exact Hlo.
  - apply Qle_shift_div_r; [exact Hpos|]. rewrite Qmult_comm. exact Hhi.
Qed.

Lemma exact_aggregate_ordered (values : list Q) :
  (0 < length values)%nat ->
  min_mean_max_ordered Qle_bool (aggregate sum_over_count values) = true.
Proof.
  destruct values as [|x rest]; [simpl; lia | intros _].
  unfold min_mean_max_ordered, aggregate. cbn [min mean max].
  destruct (exact_mean_between x rest) as [Hlo Hhi].
  apply andb_true_intro. split; now apply Qle_bool_iff.
Qed.

Lemma exact_aggregates_agree (values : list Q) :
  aggregate statistics_mean values = aggregate sum_over_count values.
Proof.
  destruct values as [|x rest]; [reflexivity|].
  unfold aggregate. now rewrite statistics_mean_exact.
Qed.

End ExactOrder.

(** C5, as amended.  With the values taken as exact rationals (no NaN, no
    infinity, no rounding), whenever a summary returns a positive count its
    min, mean and max satisfy min <= mean <= max.  Any deque, both stores. *)
Theorem exact_min_mean_max_ordered
  (events : list (event Q)) (now1 now2 : Z) (r : stats Q) :
  r = fst (EventService.get_statistics now1 now2 events)
  \/ r = fst (EventStore.get_recent_stats now2 events) ->
  (0 < count r)%nat ->
  min_mean_max_ordered Qle_bool r = true.
Proof.
  intros [-> | ->].
  - rewrite get_statistics_fst, count_aggregate. apply exact_aggregate_ordered.
  - rewrite get_recent_stats_fst, exact_aggregates_agree, count_aggregate.
    apply exact_aggregate_ordered.
Qed.

Lemma exact_min_mean_max_ordered_witness :
  let events := [(mk_aware 0 0, 50%Q); (mk_aware 5 0, 25%Q)] in
  min_mean_max_ordered Qle_bool (fst (EventStore.get_recent_stats 7 events)) = true.
Proof.
  intros events.
  apply (exact_min_mean_max_ordered events 7 7).
  - right. reflexivity.
  - simpl. lia.
Defined.

(** C5, as stated, fails on floats: the service accepts a NaN, and the
    summary that follows has count 1 with min, mean and max all NaN, which
    [<=] does not order. *)
Lemma nan_breaks_min_mean_max :
  let events := EventService.add_event 0 (Aware (mk_aware 0 0)) nan [] in
  let r := fst (EventService.get_statistics 0 0 events) in
  count r = 1%nat
  /\ min r = Some nan /\ mean r = Some nan /\ max r = Some nan
  /\ min_mean_max_ordered PrimFloat.leb r = false.
Proof. vm_compute. repeat split. Qed.

(** Finite values do not save the order on floats either: the sum of two
    copies of the largest double overflows, and the mean that the service
    returns is above its max. *)
Example overflow_breaks_min_mean_max :
  let big := 0x1.fffffffffffffp+1023%float in
  let events := [(mk_aware 0 0, big); (mk_aware 0 0, big)] in
  let r := fst (EventService.get_statistics 0 0 events) in
  max r = Some big /\ mean r = Some infinity
  /\ min_mean_max_ordered PrimFloat.leb r = false.
Proof. vm_compute. repeat split. Qed.

(* ------------------------------------------------------------------ *)
(** * The two stores against each other *)

(** Whatever the value type, the two stores agree on count, min and max
    after the same calls. *)
Lemma stores_agree_on_count_min_max
  (V : Type) (N : PyNumber V) (S : PyStatistics V)
  (calls : list (call V)) (now : Z) :
  nondecreasing (map clock_of calls ++ [now]) ->
  let r1 := fst (EventService.get_statistics now now (EventService.run calls [])) in
  let r2 := fst (EventStore.get_recent_stats now (EventStore.run calls [])) in
  count r1 = count r2 /\ min r1 = min r2 /\ max r1 = max r2.
Proof.
  intros Hnd r1 r2. subst r1 r2.
  destruct (run_keeps_window _ service_step_spec calls now Hnd)
    as (_ & _ & _ & Hinc1).
  destruct (run_keeps_window _ store_step_spec calls now Hnd)
    as (_ & _ & _ & Hinc2).
  rewrite get_statistics_included by lia. rewrite get_recent_stats_included.
  unfold EventService.run, EventStore.run, EventService.t, EventStore.t.
  rewrite Hinc1, Hinc2.
  now destruct (map snd (included now (recorded calls))).
Qed.

(** C10.  In exact arithmetic the two stores are observationally
    equivalent: after the same sequence of record and summary calls, made
    under a clock that never goes back, a summary at [now] returns the same
    count, min, max and mean from [EventService.get_statistics] and from
    [EventStore.get_recent_stats], although [store_event] evicts nothing
    and the means are computed as [sum / count] and by [statistics.mean]. *)
Theorem stores_agree_in_exact_arithmetic (calls : list (call Q)) (now : Z) :
  nondecreasing (map clock_of calls ++ [now]) ->
  fst (EventService.get_statistics now now (EventService.run calls []))
  = fst (EventStore.get_recent_stats now (EventStore.run calls [])).
Proof.
  intros Hnd.
  destruct (run_keeps_window _ service_step_spec calls now Hnd)
    as (_ & _ & _ & Hinc1).
  destruct (run_keeps_window _ store_step_spec calls now Hnd)
    as (_ & _ & _ & Hinc2).
  rewrite get_statistics_included by lia.
  rewrite get_recent_stats_included, exact_aggregates_agree.
  unfold EventService.run, EventStore.run, EventService.t, EventStore.t.
  now rewrite Hinc1, Hinc2.
Qed.

Lemma stores_agree_in_exact_arithmetic_witness :
  let calls := [Record 0 (Aware (mk_aware 0 0)) 100%Q;
                Record (2 * hour) (Aware (mk_aware (2 * hour - 30) 0)) 50%Q;
                Record (2 * hour) (Aware (mk_aware (2 * hour) 0)) 25%Q] in
  fst (EventService.get_statistics (2 * hour) (2 * hour) (EventService.run calls []))
  = fst (EventStore.get_recent_stats (2 * hour) (EventStore.run calls [])).
Proof.
  intros calls.
  apply (stores_agree_in_exact_arithmetic calls (2 * hour)).
  simpl. unfold hour. lia.
Defined.

(** The FastAPI route of GET /statistics on floats: a stored NaN makes the
    aggregates NaN, which the response cannot render, and the answer is
    500, while the deque has been trimmed all the same. *)
Example nan_statistics_is_server_error :
  FastApiApp.get_statistics (2 * hour)
    [(mk_aware 0 0, 1%float); (mk_aware (2 * hour) 0, nan)]
  = (500%nat, None, [(mk_aware (2 * hour) 0, nan)])
  /\ FastApiApp.get_statistics (2 * hour)
       [(mk_aware 0 0, 1%float); (mk_aware (2 * hour) 0, 2%float)]
     = (200%nat, Some (mk_stats 1 (Some 2%float) (Some 2%float) (Some 2%float)),
        [(mk_aware (2 * hour) 0, 2%float)]).
Proof. vm_compute. split; reflexivity. Qed.

(** On floats the means of the two stores can differ: [statistics.mean]
    rounds the exact mean once, [sum / count] overflows. *)
Example float_means_differ :
  let big := 0x1.fffffffffffffp+1023%float in
  let events := [(mk_aware 0 0, big); (mk_aware 0 0, big)] in
  mean (fst (EventService.get_statistics 0 0 events)) = Some infinity
  /\ mean (fst (EventStore.get_recent_stats 0 events)) = Some big.
Proof. vm_compute. split; reflexivity. Qed.

(* ------------------------------------------------------------------ *)
(** * The handlers of POST /event *)

Section FlaskHandler.
Context {V : Type} `{PyNumber V}.
Variable fromisoformat : string -> option datetime.
Variable float_of_str : string -> option V.
Implicit Types (items : list (string * json V)) (events : list (event V)).

Local Abbreviation post_event := (FlaskApp.post_event fromisoformat float_of_str).
Local Abbreviation parse_timestamp := (FlaskApp.parse_timestamp (V:=V) fromisoformat).
Local Abbreviation to_float := (FlaskApp.to_float float_of_str).

(** On a JSON object the handler is a cascade over the two fields. *)
Lemma post_event_dict now items events :
  post_event now (FlaskApp.Body (JDict items)) events
  = match dict_get "timestamp" items with
    | None => (400%nat, events)
    | Some x =>
        match dict_get "value" items with
        | None => (400%nat, events)
        | Some y =>
            match parse_timestamp x with
            | Raise (ValueError | AttributeError) => (400%nat, events)
            | Raise _ => (500%nat, events)
            | Ok timestamp =>
                match to_float y with
                | Raise (ValueError | TypeError) => (400%nat, events)
                | Raise _ => (500%nat, events)
                | Ok value =>
                    (201%nat, EventService.add_event now timestamp value events)
                end
            end
        end
    end.
Proof.
  unfold FlaskApp.post_event, FlaskApp.contains, FlaskApp.subscript, FlaskApp.falsy.
  destruct items as [|item rest]; [reflexivity|].
  destruct (dict_get "timestamp" (item :: rest)) as [x|]; [|reflexivity].
  destruct (dict_get "value" (item :: rest)) as [y|]; reflexivity.
Qed.

Lemma parse_timestamp_raises (x : json V) e :
  parse_timestamp x = Raise e -> e = ValueError \/ e = AttributeError.
Proof.
  destruct x; simpl; try (intros [= <-]; now right).
  destruct (fromisoformat _); [discriminate | intros [= <-]; now left].
Qed.

Lemma post_event_accepts now items events x y timestamp value :
  dict_get "timestamp" items = Some x ->
  dict_get "value" items = Some y ->
  parse_timestamp x = Ok timestamp ->
  to_float y = Ok value ->
  post_event now (FlaskApp.Body (JDict items)) events
  = (201%nat, EventService.add_event now timestamp value events).
Proof.
  intros Hx Hy Ht Hv. now rewrite post_event_dict, Hx, Hy, Ht, Hv.
Qed.

Lemma post_event_turns_down now items events :
  turned_down fromisoformat float_of_str items ->
  post_event now (FlaskApp.Body (JDict items)) events = (400%nat, events).
Proof.
  intros Hbad. rewrite post_event_dict.
  destruct (dict_get "timestamp" items) as [x|] eqn:Hx; [|reflexivity].
  destruct (dict_get "value" items) as [y|] eqn:Hy; [|reflexivity].
  destruct (parse_timestamp x) as [timestamp|e] eqn:Ht.
  - destruct Hbad as [Hbad | [(x' & Hx' & Hbad) | [Hbad | (y' & Hy' & Hbad)]]].
    + congruence.
    + assert (x' = x) as -> by congruence. now elim (Hbad timestamp).
    + congruence.
    + assert (y' = y) as -> by congruence. now destruct Hbad as [-> | ->].
  - now destruct (parse_timestamp_raises _ _ Ht) as [-> | ->].
Qed.

End FlaskHandler.

(** C7, as amended.  For a POST /event from which [get_json()] returns a
    JSON object, the Flask handler: records the event and answers 201 when
    the timestamp is a string that [fromisoformat] parses and [float]
    converts the value (a number in the range of a double, a boolean, a
    numeric string); answers 400 and leaves the deque as it was when the
    timestamp is missing or is not such a string, or the value is missing,
    or [float] raises TypeError or ValueError on it.  The FastAPI route
    records the event, its timestamp converted to UTC, and answers 200 when
    the two fields of the body parse and the validator converts the
    timestamp (its UTC instant is within the years 1 to 9999); it answers
    422 and leaves the deque as it was when the fields do not parse. *)
Theorem post_event_status
  (V : Type) (N : PyNumber V)
  (fromisoformat : string -> option datetime) (float_of_str : string -> option V)
  (parse_fields : json V -> option (datetime * V))
  (now : Z) (items : list (string * json V)) (body : json V)
  (events : list (event V)) :
  (forall x y timestamp value,
     dict_get "timestamp" items = Some x ->
     dict_get "value" items = Some y ->
     FlaskApp.parse_timestamp fromisoformat x = Ok timestamp ->
     FlaskApp.to_float float_of_str y = Ok value ->
     FlaskApp.post_event fromisoformat float_of_str now
       (FlaskApp.Body (JDict items)) events
     = (201%nat, EventService.add_event now timestamp value events))
  /\
  (turned_down fromisoformat float_of_str items ->
   FlaskApp.post_event fromisoformat float_of_str now
     (FlaskApp.Body (JDict items)) events
   = (400%nat, events))
  /\
  (forall timestamp value utc,
     parse_fields body = Some (timestamp, value) ->
     Models.ensure_utc_timezone timestamp = Ok utc ->
     FastApiApp.post_event parse_fields body events
     = (200%nat, EventStore.store_event utc value events))
  /\
  (parse_fields body = None ->
   FastApiApp.post_event parse_fields body events = (422%nat, events)).
Proof.
  repeat split.
  - intros x y timestamp value. apply post_event_accepts.
  - apply post_event_turns_down.
  - intros timestamp value utc Hp Hutc.
    unfold FastApiApp.post_event, FastApiApp.model_validate.
    now rewrite Hp, Hutc.
  - intros Hp. unfold FastApiApp.post_event, FastApiApp.model_validate.
    now rewrite Hp.
Qed.

Lemma post_event_status_witness :
  FlaskApp.post_event sample_fromisoformat sample_float_of_str 0
    (FlaskApp.Body (JDict [("value"%string, JFloat 12.5%float)])) []
  = (400%nat, []).
Proof.
  destruct (post_event_status float _ sample_fromisoformat sample_float_of_str
              (fun _ => None) 0 [("value"%string, JFloat 12.5%float)] JNull [])
    as (_ & Hdown & _ & _).
  apply Hdown. left. reflexivity.
Defined.

(** C7, as stated, fails: a request whose value is the string "12.5", or
    the boolean true, neither of them a number, is answered 201 by the
    Flask handler and the event is recorded. *)
Lemma non_number_value_is_accepted :
  let text := [("timestamp"%string, JStr "2025-06-26T14:30:00Z");
               ("value"%string, JStr "12.5")] in
  let flag := [("timestamp"%string, JStr "2025-06-26T14:30:00Z");
               ("value"%string, JBool true)] in
  (value_not_a_number text
   /\ FlaskApp.post_event sample_fromisoformat sample_float_of_str
        1750948200000000 (FlaskApp.Body (JDict text)) []
      = (201%nat, [(mk_aware 1750948200000000 0, 12.5%float)]))
  /\
  (value_not_a_number flag
   /\ FlaskApp.post_event sample_fromisoformat sample_float_of_str
        1750948200000000 (FlaskApp.Body (JDict flag)) []
      = (201%nat, [(mk_aware 1750948200000000 0, 1%float)])).
Proof. repeat split; vm_compute; reflexivity. Qed.

(** Outside the amended statement: a body that is JSON but not an object,
    such as the number 5, has no timestamp and is answered 500, because
    ['timestamp' not in data] raises TypeError, which only the outer
    [except] catches; so is an integer value too large for a double, and so
    is a body from which [get_json()] raises (not JSON, or sent without a
    JSON content type). *)
Example non_object_body_is_server_error :
  FlaskApp.post_event sample_fromisoformat sample_float_of_str 0
    (FlaskApp.Body (JInt 5)) []
  = (500%nat, [])
  /\ FlaskApp.post_event sample_fromisoformat sample_float_of_str 0
       (FlaskApp.Body (JDict [("timestamp"%string, JStr "2025-06-26T14:30:00Z");
                              ("value"%string, JInt (2 ^ 1024))])) []
     = (500%nat, [])
  /\ FlaskApp.post_event sample_fromisoformat sample_float_of_str 0
       FlaskApp.Unreadable []
     = (500%nat, []).
Proof. repeat split; vm_compute; reflexivity. Qed.

(** Outside the amended statement too: the FastAPI route answers 500 and
    stores nothing when the validator raises, as on the timestamp
    0001-01-01T00:00:00+02:00, whose UTC instant is two hours before the
    first datetime. *)
Example validator_overflow_is_server_error :
  let two_hours := 2 * hour in
  let timestamp := Aware (mk_aware (Models.datetime_min - two_hours) two_hours) in
  FastApiApp.post_event (fun _ : json float => Some (timestamp, 1%float)) JNull []
  = (500%nat, []).
Proof. vm_compute. reflexivity. Qed.

(* ------------------------------------------------------------------ *)
(** * The scenarios of the test suites, on floats *)

Section Scenarios.
Let t0 : Z := 1750948200000000.
Let at_ (instant : Z) : datetime := Aware (mk_aware instant 0).

(** Three events at the same timestamp. *)
Example scenario_same_timestamp :
  let calls := [Record t0 (at_ t0) 10%float; Record t0 (at_ t0) 20%float;
                Record t0 (at_ t0) 30%float] in
  fst (EventService.get_statistics t0 t0 (EventService.run calls []))
  = mk_stats 3 (Some 10%float) (Some 30%float) (Some 20%float)
  /\ fst (EventStore.get_recent_stats t0 (EventStore.run calls []))
     = mk_stats 3 (Some 10%float) (Some 30%float) (Some 20%float).
Proof. vm_compute. split; reflexivity. Qed.

(** One event two hours old: excluded, and evicted. *)
Example scenario_old_event :
  let calls := [Record t0 (at_ (t0 - 2 * hour)) 100%float] in
  EventService.get_statistics t0 t0 (EventService.run calls [])
  = (mk_stats 0 None None None, [])
  /\ EventStore.get_recent_stats t0 (EventStore.run calls [])
     = (mk_stats 0 None None None, []).
Proof. vm_compute. split; reflexivity. Qed.

(** An old event, one half an hour old and a current one. *)
Example scenario_time_window :
  let calls := [Record t0 (at_ (t0 - 2 * hour)) 100%float;
                Record t0 (at_ (t0 - hour / 2)) 50%float;
                Record t0 (at_ t0) 25%float] in
  fst (EventService.get_statistics t0 t0 (EventService.run calls []))
  = mk_stats 2 (Some 25%float) (Some 50%float) (Some 37.5%float)
  /\ EventService.get_event_count (EventService.run calls []) = 2%nat
  /\ EventStore.get_recent_stats t0 (EventStore.run calls [])
     = (mk_stats 2 (Some 25%float) (Some 50%float) (Some 37.5%float),
        [(mk_aware (t0 - hour / 2) 0, 50%float); (mk_aware t0 0, 25%float)]).
Proof. vm_compute. repeat split; reflexivity. Qed.

(** Out-of-order arrival: a stale event behind a fresh one stays in the
    deque, and is not counted. *)
Example scenario_backdated :
  let calls := [Record t0 (at_ t0) 1%float;
                Record t0 (at_ (t0 - 2 * hour)) 2%float] in
  EventService.get_statistics t0 t0 (EventService.run calls [])
  = (mk_stats 1 (Some 1%float) (Some 1%float) (Some 1%float),
     [(mk_aware t0 0, 1%float); (mk_aware (t0 - 2 * hour) 0, 2%float)]).
Proof. vm_compute. reflexivity. Qed.

End Scenarios.

(* ------------------------------------------------------------------ *)
(** * The deque after a call *)

Lemma popleft_while_drop {V : Type} (c : aware) (evicted rest : list (event V)) :
  Forall (stale c) evicted ->
  popleft_while c (evicted ++ rest) = popleft_while c rest.
Proof.
  induction 1 as [|e evicted He _ IH]; [reflexivity|].
  simpl. unfold dt_lt. unfold stale in He.
  destruct (Z.ltb_spec (utc_instant (fst e)) (utc_instant c)); [exact IH | lia].
Qed.

Lemma nondecreasing_app_last (readings : list Z) (a : Z) :
  nondecreasing (readings ++ [a]) -> nondecreasing readings.
Proof.
  induction readings as [|b rest IH]; intros Hnd; [exact I|].
  destruct rest as [|c rest]; [exact I|].
  destruct Hnd as [Hbc Hrest]. split; [exact Hbc | now apply IH].
Qed.

Lemma service_step_popleft {V : Type} `{PyNumber V}
  (events : list (event V)) (c : call V) :
  EventService.step events c
  = popleft_while (EventService.cutoff_time (clock_of c)) (events ++ recorded [c]).
Proof.
  destruct c as [now timestamp value | now]; simpl.
  - reflexivity.
  - now rewrite app_nil_r.
Qed.

Lemma fold_left_snoc {A B : Type} (f : A -> B -> A) (l : list B) (b : B) (a : A) :
  fold_left f (l ++ [b]) a = f (fold_left f l a) b.
Proof. now rewrite fold_left_app. Qed.

(** Trimming at a cutoff not before the clocks of a run sees through the
    trimming that the run did: on the deque of the run, followed by
    anything, it gives what it gives on the recorded sequence followed by
    the same. *)
Lemma trim_after_run {V : Type}
  (step : list (event V) -> call V -> list (event V)) :
  (forall events c, exists evicted,
      events ++ recorded [c] = evicted ++ step events c
      /\ Forall (stale (EventService.cutoff_time (clock_of c))) evicted) ->
  forall (calls : list (call V)) (bound : Z) (tail : list (event V)),
    nondecreasing (map clock_of calls ++ [bound]) ->
    popleft_while (EventService.cutoff_time bound) (fold_left step calls [] ++ tail)
    = popleft_while (EventService.cutoff_time bound) (recorded calls ++ tail).
Proof.
  intros Hspec calls bound tail Hnd.
  destruct (run_evicts_stale step Hspec calls [] bound Hnd) as (ev & Heq & Hst).
  simpl in Heq. rewrite Heq, <- app_assoc.
  symmetry. apply popleft_while_drop. exact Hst.
Qed.

(** X1.  Under a clock that never goes back, the deque that the service
    holds after a call is the whole recorded sequence trimmed once, at the
    cutoff of that last call: the trimming done by the earlier calls leaves
    no trace. *)
Theorem service_deque_after_call
  (V : Type) (N : PyNumber V) (calls : list (call V)) (c : call V) :
  nondecreasing (map clock_of (calls ++ [c])) ->
  EventService.run (calls ++ [c]) []
  = popleft_while (EventService.cutoff_time (clock_of c))
      (recorded (calls ++ [c])).
Proof.
  intros Hnd. rewrite map_app in Hnd. simpl in Hnd.
  unfold EventService.run. rewrite fold_left_snoc, service_step_popleft.
  rewrite recorded_app.
  exact (trim_after_run _ service_step_spec calls (clock_of c) (recorded [c]) Hnd).
Qed.

Lemma service_deque_after_call_witness :
  let calls := [Record 0 (Aware (mk_aware 0 0)) 1%Q;
                Record (hour + 1) (Aware (mk_aware hour 0)) 2%Q] in
  EventService.run (calls ++ [Summary (2 * hour)]) []
  = popleft_while (EventService.cutoff_time (2 * hour))
      (recorded (calls ++ [Summary (2 * hour)])).
Proof.
  intros calls.
  apply (service_deque_after_call Q _ calls (Summary (2 * hour))).
  simpl. unfold hour. lia.
Defined.

(** X2.  Under a clock that never goes back, after a summary the two
    stores hold the same deque, the recorded sequence trimmed at the cutoff
    of that summary, although one of them trims on every record and the
    other never does. *)
Theorem stores_hold_same_deque_after_summary
  (V : Type) (N : PyNumber V) (S : PyStatistics V)
  (calls : list (call V)) (now : Z) :
  nondecreasing (map clock_of calls ++ [now]) ->
  EventService.run (calls ++ [Summary now]) []
  = popleft_while (EventService.cutoff_time now) (recorded calls)
  /\
  EventStore.run (calls ++ [Summary now]) []
  = popleft_while (EventService.cutoff_time now) (recorded calls).
Proof.
  intros Hnd. split.
  - unfold EventService.run. rewrite fold_left_snoc.
    cbn [EventService.step]. rewrite get_statistics_snd.
    pose proof (trim_after_run _ service_step_spec calls now [] Hnd) as Htrim.
    now rewrite !app_nil_r in Htrim.
  - unfold EventStore.run. rewrite fold_left_snoc.
    cbn [EventStore.step]. rewrite get_recent_stats_snd.
    pose proof (trim_after_run _ store_step_spec calls now [] Hnd) as Htrim.
    now rewrite !app_nil_r in Htrim.
Qed.

Lemma stores_hold_same_deque_after_summary_witness :
  let calls := [Record 0 (Aware (mk_aware 0 0)) 1%Q;
                Record (hour + 1) (Aware (mk_aware hour 0)) 2%Q] in
  EventService.run (calls ++ [Summary (2 * hour)]) []
  = EventStore.run (calls ++ [Summary (2 * hour)]) [].
Proof.
  intros calls.
  destruct (stores_hold_same_deque_after_summary Q _ _ calls (2 * hour))
    as [Hservice Hstore].
  - simpl. unfold hour. lia.
  - now rewrite Hservice, Hstore.
Defined.

(* ------------------------------------------------------------------ *)
(** * When arrival order is time order *)

Lemma in_window_not_stale {V : Type} (now : Z) (e : event V) :
  in_window now e = negb (dt_lt (fst e) (EventService.cutoff_time now)).
Proof.
  unfold in_window, dt_lt. rewrite cutoff_instant.
  destruct (Z.leb_spec (now - hour) (utc_instant (fst e))),
           (Z.ltb_spec (utc_instant (fst e)) (now - hour)); simpl; lia || reflexivity.
Qed.

Lemma arrival_ordered_cons {V : Type} (e : event V) (events : list (event V)) :
  arrival_ordered (e :: events) ->
  Forall (fun e' => utc_instant (fst e) <= utc_instant (fst e')) events
  /\ arrival_ordered events.
Proof.
  unfold arrival_ordered. simpl. intros Hnd.
  apply nondecreasing_cons in Hnd. destruct Hnd as [Hall Hrest].
  split; [|exact Hrest]. now rewrite Forall_map in Hall.
Qed.

(** On a deque in time order, trimming the front removes every stale
    event: it is the full filter. *)
Lemma popleft_while_ordered {V : Type} (now : Z) (events : list (event V)) :
  arrival_ordered events ->
  popleft_while (EventService.cutoff_time now) events = included now events.
Proof.
  induction events as [|e rest IH]; intros Hord; [reflexivity|].
  apply arrival_ordered_cons in Hord. destruct Hord as [Hall Hord].
  unfold included in *. cbn [popleft_while filter].
  rewrite in_window_not_stale.
  destruct (dt_lt (fst e) (EventService.cutoff_time now)) eqn:He; cbn [negb].
  - now apply IH.
  - f_equal. symmetry. apply forallb_filter_id, forallb_forall.
    rewrite Forall_forall in Hall. intros e' Hin. specialize (Hall e' Hin).
    unfold dt_lt in He. rewrite cutoff_instant in He. apply Z.ltb_ge in He.
    unfold in_window. apply Z.leb_le. lia.
Qed.

Lemma length_filter_le {A : Type} (f : A -> bool) (l : list A) :
  (length (filter f l) <= length l)%nat.
Proof.
  induction l as [|a l IH]; simpl; [lia|]. destruct (f a); simpl; lia.
Qed.

Lemma included_idem {V : Type} (now : Z) (events : list (event V)) :
  included now (included now events) = included now events.
Proof.
  unfold included. induction events as [|e rest IH]; [reflexivity|].
  simpl. destruct (in_window now e) eqn:He; simpl; [rewrite He; f_equal|]; exact IH.
Qed.

Lemma included_popleft {V : Type} (now now' : Z) (events : list (event V)) :
  now <= now' ->
  included now' (popleft_while (EventService.cutoff_time now) events)
  = included now' events.
Proof.
  intros Hle.
  destruct (popleft_while_split (EventService.cutoff_time now) events)
    as (ev & Heq & Hst).
  assert (Hout : included now' ev = []).
  { apply included_none, stale_not_in_window. now apply stale_later with now. }
  transitivity (included now' (ev ++ popleft_while (EventService.cutoff_time now) events)).
  - now rewrite included_app, Hout.
  - now rewrite <- Heq.
Qed.

(** X3.  A summary never counts more events than its store holds after the
    call.  When the stored timestamps are in arrival order, the clean-up
    removes every event outside the window of its own clock reading and
    the deque left is exactly the events in that window; so the count of
    the store, which reads the clock once, is the number of events left,
    and so is the count of the service when its two clock readings
    coincide (a later filter reading may count fewer than are left). *)
Theorem count_against_event_count
  (V : Type) (N : PyNumber V) (S : PyStatistics V)
  (events : list (event V)) (now1 now2 : Z) :
  let service := EventService.get_statistics now1 now2 events in
  let store := EventStore.get_recent_stats now2 events in
  (count (fst service) <= EventService.get_event_count (snd service))%nat
  /\ (count (fst store) <= length (snd store))%nat
  /\ (arrival_ordered events ->
      snd service = included now1 events
      /\ snd store = included now2 events
      /\ count (fst store) = length (snd store)
      /\ (now1 <= now2 -> count (fst service) = length (included now2 events))
      /\ (now1 = now2 ->
          count (fst service) = EventService.get_event_count (snd service))).
Proof.
  intros service store. subst service store.
  assert (Hservice : count (fst (EventService.get_statistics now1 now2 events))
                     = length (included now2
                                 (popleft_while (EventService.cutoff_time now1) events))).
  { rewrite get_statistics_fst, count_aggregate, recent_values_window.
    now rewrite length_map. }
  assert (Hstore : count (fst (EventStore.get_recent_stats now2 events))
                   = length (included now2
                               (popleft_while (EventService.cutoff_time now2) events))).
  { rewrite get_recent_stats_included, count_aggregate, length_map.
    now rewrite included_popleft by lia. }
  rewrite Hservice, Hstore, get_statistics_snd, get_recent_stats_snd.
  unfold EventService.get_event_count.
  split; [apply length_filter_le|]. split; [apply length_filter_le|].
  intros Hord. rewrite !(popleft_while_ordered _ events Hord).
  repeat split.
  - now rewrite included_idem.
  - intros Hle. rewrite <- (popleft_while_ordered now1 events Hord).
    now rewrite included_popleft by exact Hle.
  - intros ->. now rewrite included_idem.
Qed.

Lemma count_against_event_count_witness :
  let events := [(mk_aware 0 0, 1%Q); (mk_aware 5 0, 2%Q);
                 (mk_aware (2 * hour) 0, 3%Q)] in
  snd (EventService.get_statistics (2 * hour) (2 * hour + 7) events)
  = included (2 * hour) events.
Proof.
  intros events.
  destruct (count_against_event_count Q _ _ events (2 * hour) (2 * hour + 7))
    as (_ & _ & Hord).
  apply Hord. unfold arrival_ordered. simpl. unfold hour. lia.
Defined.

(** X4.  When the clock never goes back and the events are recorded in
    time order, the deque of the service after any call holds exactly the
    recorded events that are in the window of that call: nothing stale is
    retained. *)
Theorem ordered_service_holds_the_window
  (V : Type) (N : PyNumber V) (calls : list (call V)) (c : call V) :
  nondecreasing (map clock_of (calls ++ [c])) ->
  arrival_ordered (recorded (calls ++ [c])) ->
  EventService.run (calls ++ [c]) []
  = included (clock_of c) (recorded (calls ++ [c])).
Proof.
  intros Hnd Hord. rewrite map_app in Hnd. simpl in Hnd.
  unfold EventService.run. rewrite fold_left_snoc, service_step_popleft.
  rewrite (trim_after_run _ service_step_spec calls (clock_of c) (recorded [c]) Hnd).
  rewrite <- recorded_app. now apply popleft_while_ordered.
Qed.

Lemma ordered_service_holds_the_window_witness :
  let calls := [Record 0 (Aware (mk_aware 0 0)) 1%Q;
                Record (hour + 1) (Aware (mk_aware hour 0)) 2%Q] in
  let c := Record (2 * hour) (Aware (mk_aware (2 * hour) 0)) 3%Q in
  EventService.run (calls ++ [c]) []
  = included (2 * hour) (recorded (calls ++ [c])).
Proof.
  intros calls c.
  apply (ordered_service_holds_the_window Q _ calls c).
  - simpl. unfold hour. lia.
  - unfold arrival_ordered. simpl. unfold hour. lia.
Defined.

(* ------------------------------------------------------------------ *)
(** * How calls compose *)

(** X5.  A summary returns count 0 exactly when it leaves the deque empty:
    the oldest event that the clean-up keeps is always one that the filter
    of the same instant counts.  Both stores. *)
Theorem count_zero_iff_deque_empty
  (V : Type) (N : PyNumber V) (S : PyStatistics V)
  (events : list (event V)) (now : Z) :
  (count (fst (EventService.get_statistics now now events)) = 0%nat
   <-> snd (EventService.get_statistics now now events) = [])
  /\
  (count (fst (EventStore.get_recent_stats now events)) = 0%nat
   <-> snd (EventStore.get_recent_stats now events) = []).
Proof.
  assert (Hkey : length (included now (popleft_while (EventService.cutoff_time now) events))
                 = 0%nat
                 <-> popleft_while (EventService.cutoff_time now) events = []).
  { destruct (popleft_while (EventService.cutoff_time now) events) as [|e rest] eqn:E.
    - split; reflexivity.
    - apply popleft_while_head in E. rewrite cutoff_instant in E.
      unfold included. cbn [filter]. unfold in_window at 1.
      destruct (Z.leb_spec (now - hour) (utc_instant (fst e))); [|lia].
      split; discriminate. }
  rewrite included_popleft in Hkey by lia.
  split.
  - rewrite get_statistics_included by lia.
    now rewrite count_aggregate, length_map, get_statistics_snd.
  - rewrite get_recent_stats_included.
    now rewrite count_aggregate, length_map, get_recent_stats_snd.
Qed.

Lemma count_zero_iff_deque_empty_witness :
  snd (EventService.get_statistics (2 * hour) (2 * hour) [(mk_aware 0 0, 1%Q)]) = [].
Proof.
  apply (proj1 (count_zero_iff_deque_empty Q _ _ [(mk_aware 0 0, 1%Q)] (2 * hour))).
  reflexivity.
Defined.

(** X6.  Read after write: a summary that follows a record aggregates the
    values it would have aggregated without it, followed by the new value
    when the timestamp of the new event is in the window of the summary
    (for the service, no clock reading of the two calls being after the
    reading that fixes the window).  Both stores. *)
Theorem summary_after_record
  (V : Type) (N : PyNumber V) (S : PyStatistics V)
  (events : list (event V)) (now now1 now2 : Z)
  (timestamp : datetime) (value : V) :
  now <= now2 -> now1 <= now2 ->
  let before := map snd (included now2 events) in
  let added :=
    if in_window now2 (ensure_aware timestamp, value) then [value] else [] in
  fst (EventService.get_statistics now1 now2
         (EventService.add_event now timestamp value events))
  = aggregate sum_over_count (before ++ added)
  /\
  fst (EventStore.get_recent_stats now2
         (EventStore.store_event timestamp value events))
  = aggregate statistics_mean (before ++ added).
Proof.
  intros H0 H1 before added.
  assert (Hinc : map snd (included now2 (events ++ [(ensure_aware timestamp, value)]))
                 = before ++ added).
  { rewrite included_app, map_app. subst before added. f_equal.
    unfold included. cbn [filter].
    now destruct (in_window now2 (ensure_aware timestamp, value)). }
  split.
  - rewrite get_statistics_included by exact H1.
    unfold EventService.add_event, EventService._cleanup_old_events.
    rewrite included_popleft by exact H0. now rewrite Hinc.
  - rewrite get_recent_stats_included. unfold EventStore.store_event.
    now rewrite Hinc.
Qed.

Lemma summary_after_record_witness :
  count (fst (EventService.get_statistics 7 7
                (EventService.add_event 5 (Naive 5) 3%Q [(mk_aware 1 0, 2%Q)])))
  = 2%nat.
Proof.
  destruct (summary_after_record Q _ _ [(mk_aware 1 0, 2%Q)] 5 7 7 (Naive 5) 3%Q)
    as [Hservice _]; [lia | lia |].
  rewrite Hservice. reflexivity.
Defined.

(** X7.  [clear] forgets everything: whatever was done before it, the
    service goes on as a fresh one, and a summary right after it is
    empty. *)
Theorem clear_starts_afresh
  (V : Type) (N : PyNumber V)
  (before after : list (EventService.op V)) (events : list (event V))
  (now1 now2 : Z) :
  EventService.run_ops (before ++ EventService.Clear :: after) events
  = EventService.run_ops after EventService.init
  /\
  EventService.get_statistics now1 now2
    (EventService.run_ops (before ++ [EventService.Clear]) events)
  = (mk_stats 0 None None None, []).
Proof.
  unfold EventService.run_ops. rewrite !fold_left_app. split; reflexivity.
Qed.

(** X8.  A summary reads timestamps through the instants they denote only:
    converting the stored timestamps to UTC changes neither the dictionary
    that a summary returns nor, up to that conversion, the deque it
    leaves.  Both stores. *)
Theorem summary_ignores_utc_offsets
  (V : Type) (N : PyNumber V) (S : PyStatistics V)
  (events : list (event V)) (now1 now2 : Z) :
  EventService.get_statistics now1 now2 (map in_utc events)
  = (fst (EventService.get_statistics now1 now2 events),
     map in_utc (snd (EventService.get_statistics now1 now2 events)))
  /\
  EventStore.get_recent_stats now2 (map in_utc events)
  = (fst (EventStore.get_recent_stats now2 events),
     map in_utc (snd (EventStore.get_recent_stats now2 events))).
Proof.
  assert (Hpop : forall c (l : list (event V)),
             popleft_while c (map in_utc l) = map in_utc (popleft_while c l)).
  { intros c l. induction l as [|e rest IH]; [reflexivity|].
    cbn [map popleft_while]. change (dt_lt (fst (in_utc e)) c) with (dt_lt (fst e) c).
    now destruct (dt_lt (fst e) c). }
  assert (Hrec : forall c (l : list (event V)),
             recent_values c (map in_utc l) = recent_values c l).
  { intros c l. unfold recent_values. induction l as [|e rest IH]; [reflexivity|].
    cbn [map filter]. change (dt_ge (fst (in_utc e)) c) with (dt_ge (fst e) c).
    destruct (dt_ge (fst e) c); cbn [map]; now rewrite IH. }
  split.
  - rewrite (surjective_pairing (EventService.get_statistics now1 now2 (map in_utc events))).
    rewrite !get_statistics_fst, !get_statistics_snd. now rewrite Hpop, Hrec.
  - rewrite (surjective_pairing (EventStore.get_recent_stats now2 (map in_utc events))).
    rewrite !get_recent_stats_fst, !get_recent_stats_snd. now rewrite Hpop, Hrec.
Qed.

(* ------------------------------------------------------------------ *)
(** * More on the Flask handler *)

Section FlaskEdges.
Context {V : Type} `{PyNumber V}.
Variable fromisoformat : string -> option datetime.
Variable float_of_str : string -> option V.
Implicit Types (items : list (string * json V)) (events : list (event V)).

Local Abbreviation post_event := (FlaskApp.post_event fromisoformat float_of_str).
Local Abbreviation parse_timestamp := (FlaskApp.parse_timestamp (V:=V) fromisoformat).
Local Abbreviation to_float := (FlaskApp.to_float float_of_str).

(** A body that is not a JSON object is never answered 201. *)
Lemma post_event_not_dict now (data : json V) events :
  (forall items, data <> JDict items) ->
  post_event now (FlaskApp.Body data) events = (400%nat, events)
  \/ post_event now (FlaskApp.Body data) events = (500%nat, events).
Proof.
  intros Hnot. unfold FlaskApp.post_event.
  destruct (FlaskApp.falsy data); [now left|].
  destruct data as [ |b|n|x|s|l|items]; cbn [FlaskApp.contains FlaskApp.subscript];
    try (now right).
  - destruct (index 0 "timestamp" s); [|now left].
    destruct (index 0 "value" s); [now right | now left].
  - destruct (existsb _ l); [|now left].
    destruct (existsb _ l); [now right | now left].
  - now elim (Hnot items).
Qed.

Lemma post_event_dict_cases now items events :
  (exists x y timestamp value,
      dict_get "timestamp" items = Some x
      /\ dict_get "value" items = Some y
      /\ parse_timestamp x = Ok timestamp
      /\ to_float y = Ok value
      /\ post_event now (FlaskApp.Body (JDict items)) events
         = (201%nat, EventService.add_event now timestamp value events))
  \/ post_event now (FlaskApp.Body (JDict items)) events = (400%nat, events)
  \/ post_event now (FlaskApp.Body (JDict items)) events = (500%nat, events).
Proof.
  rewrite post_event_dict.
  destruct (dict_get "timestamp" items) as [x|]; [|now right; left].
  destruct (dict_get "value" items) as [y|]; [|now right; left].
  destruct (parse_timestamp x) as [timestamp|e] eqn:Ht.
  - destruct (to_float y) as [value|e] eqn:Hv.
    + left. exists x, y, timestamp, value. repeat split; assumption.
    + right. destruct e; auto.
  - right. destruct e; auto.
Qed.

End FlaskEdges.

(** X9.  The Flask handler of POST /event answers 201, 400 or 500 and
    nothing else, and it touches the deque only when it answers 201: then
    the body is a JSON object whose two fields were converted, and the deque
    is the one [add_event] returns for them; under 400 and 500 the deque is
    the one it was given. *)
Theorem post_event_records_only_on_201
  (V : Type) (N : PyNumber V)
  (fromisoformat : string -> option datetime) (float_of_str : string -> option V)
  (now : Z) (req : FlaskApp.request (V:=V)) (events : list (event V)) :
  let answer := FlaskApp.post_event fromisoformat float_of_str now req events in
  (exists items x y timestamp value,
      req = FlaskApp.Body (JDict items)
      /\ dict_get "timestamp" items = Some x
      /\ dict_get "value" items = Some y
      /\ FlaskApp.parse_timestamp fromisoformat x = Ok timestamp
      /\ FlaskApp.to_float float_of_str y = Ok value
      /\ answer = (201%nat, EventService.add_event now timestamp value events))
  \/ answer = (400%nat, events)
  \/ answer = (500%nat, events).
Proof.
  intros answer. subst answer. destruct req as [data|]; [|now right; right].
  destruct data as [ |b|n|x|s|l|items].
  7: { destruct (post_event_dict_cases fromisoformat float_of_str now items events)
         as [(x & y & timestamp & value & Hx & Hy & Ht & Hv & Heq) | Hrest].
       - left. exists items, x, y, timestamp, value. repeat split; assumption.
       - right. exact Hrest. }
  all: right; apply post_event_not_dict; intros items; discriminate.
Qed.

(** X10.  Bodies that are JSON but not objects.  A falsy body (null, false,
    0, 0.0, the empty string, list or object) is answered 400.  A truthy
    boolean or number is answered 500: the membership test on it raises
    TypeError, which only the outer handler catches.  A non-empty string or
    list is answered 500 when it contains both field names (the subscript
    raises TypeError) and 400 when it misses one.  The deque is never
    touched. *)
Theorem post_event_on_non_objects
  (V : Type) (N : PyNumber V)
  (fromisoformat : string -> option datetime) (float_of_str : string -> option V)
  (now : Z) (data : json V) (events : list (event V)) :
  let answer :=
    FlaskApp.post_event fromisoformat float_of_str now (FlaskApp.Body data) events in
  (FlaskApp.falsy data = true -> answer = (400%nat, events))
  /\
  (FlaskApp.falsy data = false ->
   (exists b, data = JBool b) \/ (exists n, data = JInt n) \/ (exists x, data = JFloat x) ->
   answer = (500%nat, events))
  /\
  (FlaskApp.falsy data = false ->
   (exists s, data = JStr s) \/ (exists l, data = JList l) ->
   answer
   = (match FlaskApp.contains "timestamp" data, FlaskApp.contains "value" data with
      | Ok true, Ok true => 500%nat
      | _, _ => 400%nat
      end, events)).
Proof.
  intros answer. subst answer. unfold FlaskApp.post_event. repeat split.
  - intros ->. reflexivity.
  - intros -> [(b & ->) | [(n & ->) | (x & ->)]]; reflexivity.
  - intros -> [(s & ->) | (l & ->)]; cbn [FlaskApp.contains FlaskApp.subscript].
    + destruct (index 0 "timestamp" s); [|reflexivity].
      destruct (index 0 "value" s); reflexivity.
    + destruct (existsb _ l); [|reflexivity].
      destruct (existsb _ l); reflexivity.
Qed.

Lemma post_event_on_non_objects_witness :
  FlaskApp.post_event sample_fromisoformat sample_float_of_str 0
    (FlaskApp.Body (JList [JStr "timestamp"; JStr "value"])) []
  = (500%nat, []).
Proof.
  destruct (post_event_on_non_objects float _ sample_fromisoformat
              sample_float_of_str 0 (JList [JStr "timestamp"; JStr "value"]) [])
    as (_ & _ & Hseq).
  apply Hseq; [reflexivity | right; eexists; reflexivity].
Defined.

(** X11.  Read after write over HTTP: when the Flask handler has answered
    201 for a timestamp in the window of a following GET /statistics (no
    clock reading of the two requests being after the one that fixes the
    window), that request is answered 200 with a count one above the count
    it would have returned without the POST. *)
Theorem statistics_after_post
  (V : Type) (N : PyNumber V)
  (fromisoformat : string -> option datetime) (float_of_str : string -> option V)
  (now now1 now2 : Z) (items : list (string * json V)) (events : list (event V))
  (x y : json V) (timestamp : datetime) (value : V) :
  dict_get "timestamp" items = Some x ->
  dict_get "value" items = Some y ->
  FlaskApp.parse_timestamp fromisoformat x = Ok timestamp ->
  FlaskApp.to_float float_of_str y = Ok value ->
  now <= now2 -> now1 <= now2 ->
  in_window now2 (ensure_aware timestamp, value) = true ->
  let posted :=
    FlaskApp.post_event fromisoformat float_of_str now
      (FlaskApp.Body (JDict items)) events in
  fst posted = 201%nat
  /\ fst (fst (FlaskApp.get_statistics now1 now2 (snd posted))) = 200%nat
  /\ count (snd (fst (FlaskApp.get_statistics now1 now2 (snd posted))))
     = Datatypes.S (count (snd (fst (FlaskApp.get_statistics now1 now2 events)))).
Proof.
  intros Hx Hy Ht Hv H0 H1 Hin posted. subst posted.
  rewrite (post_event_accepts fromisoformat float_of_str now items events
             x y timestamp value Hx Hy Ht Hv).
  cbn [fst snd]. unfold FlaskApp.get_statistics.
  rewrite (surjective_pairing (EventService.get_statistics now1 now2 events)).
  rewrite (surjective_pairing
             (EventService.get_statistics now1 now2
                (EventService.add_event now timestamp value events))).
  cbn [fst snd]. repeat split.
  rewrite !get_statistics_included by exact H1.
  rewrite !count_aggregate, !length_map.
  unfold EventService.add_event, EventService._cleanup_old_events.
  rewrite included_popleft by exact H0.
  rewrite included_app, length_app. unfold included at 2. cbn [filter].
  rewrite Hin. cbn [length]. rewrite Nat.add_1_r. reflexivity.
Qed.

Lemma statistics_after_post_witness :
  let items := [("timestamp"%string, JStr "2025-06-26T14:30:00Z");
                ("value"%string, JFloat 12.5%float)] in
  fst (FlaskApp.post_event sample_fromisoformat sample_float_of_str
         1750948200000000 (FlaskApp.Body (JDict items)) [])
  = 201%nat.
Proof.
  intros items.
  refine (proj1 (statistics_after_post float _ sample_fromisoformat
                   sample_float_of_str
                   1750948200000000 1750948200000000 1750948200000000 items []
                   (JStr "2025-06-26T14:30:00Z") (JFloat 12.5%float)
                   (Aware (mk_aware 1750948200000000 0)) 12.5%float
                   _ _ _ _ _ _ _)); try reflexivity; lia.
Defined.

(* ------------------------------------------------------------------ *)
(** * The validator of app/models.py *)

(** X12.  For a body whose two fields parse, the FastAPI route fails
    exactly when the timestamp is aware and its UTC instant is outside the
    years 1 to 9999: then the validator raises, the answer is 500 and the
    deque is as it was.  Otherwise the answer is 200 and the deque gains
    the event that [store_event] would store for the parsed timestamp,
    converted to UTC offset 0 at the same instant; no summary tells that
    deque from the one [store_event] would have left without the
    conversion. *)
Theorem validated_timestamp_is_utc
  (V : Type) (N : PyNumber V) (S : PyStatistics V)
  (parse_fields : json V -> option (datetime * V))
  (body : json V) (events : list (event V))
  (timestamp : datetime) (value : V) (now : Z) :
  parse_fields body = Some (timestamp, value) ->
  let posted := FastApiApp.post_event parse_fields body events in
  (is_naive timestamp = true
   \/ Models.representable (utc_instant (ensure_aware timestamp)) = true ->
   posted = (200%nat, events ++ [in_utc (ensure_aware timestamp, value)])
   /\ fst (EventStore.get_recent_stats now (snd posted))
      = fst (EventStore.get_recent_stats now
               (EventStore.store_event timestamp value events)))
  /\
  (is_naive timestamp = false ->
   Models.representable (utc_instant (ensure_aware timestamp)) = false ->
   posted = (500%nat, events)).
Proof.
  intros Hp posted. subst posted.
  unfold FastApiApp.post_event, FastApiApp.model_validate. rewrite Hp. split.
  - intros Hok.
    assert (Hutc : Models.ensure_utc_timezone timestamp
                   = Ok (Aware (fst (in_utc (ensure_aware timestamp, value))))).
    { destruct timestamp as [wall|a]; cbn in *; [reflexivity|].
      destruct Hok as [Hok|Hok]; [discriminate | now rewrite Hok]. }
    rewrite Hutc. cbn [FastApiApp.receive_event Models.timestamp Models.value snd].
    unfold EventStore.store_event. cbn [ensure_aware]. split; [reflexivity|].
    rewrite !get_recent_stats_fst, !recent_values_app. do 2 f_equal.
    unfold recent_values, dt_ge. cbn [filter fst in_utc utc_instant].
    now destruct (_ <=? _).
  - intros Haware Hout. destruct timestamp as [wall|a]; [discriminate|].
    cbn in *. now rewrite Hout.
Qed.

Lemma validated_timestamp_is_utc_witness :
  FastApiApp.post_event
    (fun _ : json Q => Some (Aware (mk_aware 10 7200000000), 3%Q)) JNull []
  = (200%nat, [(mk_aware 10 0, 3%Q)]).
Proof.
  refine (proj1 (proj1 (validated_timestamp_is_utc Q _ _
                          (fun _ : json Q => Some (Aware (mk_aware 10 7200000000), 3%Q))
                          JNull [] (Aware (mk_aware 10 7200000000)) 3%Q 0 eq_refl) _)).
  right. reflexivity.
Defined.

(* ------------------------------------------------------------------ *)
(** * app/utils.py *)

Section UtilsFacts.
Context {V : Type} `{PyNumber V}.
Implicit Types (events : list (datetime * V)).

Lemma datetime_ge_same_kind (a b : datetime) :
  is_naive a = is_naive b -> exists keep, Utils.datetime_ge a b = Ok keep.
Proof. destruct a, b; simpl; try discriminate; eauto. Qed.

Lemma datetime_ge_mixed (a b : datetime) :
  is_naive a <> is_naive b -> Utils.datetime_ge a b = Raise TypeError.
Proof. destruct a, b; simpl; congruence. Qed.

Lemma is_naive_sub_hour (d : datetime) : is_naive (Utils.sub_hour d) = is_naive d.
Proof. now destruct d. Qed.

Lemma values_since_raises (cutoff : datetime) events e :
  Utils.values_since cutoff events = Raise e -> e = TypeError.
Proof.
  induction events as [|[ts value] rest IH]; simpl; [discriminate|].
  destruct (Utils.datetime_ge ts cutoff) as [keep|e'] eqn:Hge.
  - destruct (Utils.values_since cutoff rest) as [values|e'']; [discriminate|].
    intros [= <-]. now apply IH.
  - intros [= <-]. destruct ts, cutoff; simpl in Hge; congruence.
Qed.

Lemma values_since_ok (cutoff : datetime) events :
  Forall (fun p => is_naive (fst p) = is_naive cutoff) events ->
  Utils.values_since cutoff events
  = Ok (map snd (filter (fun p => match Utils.datetime_ge (fst p) cutoff with
                                  | Ok true => true
                                  | _ => false
                                  end) events)).
Proof.
  induction 1 as [|[ts value] rest Hts _ IH]; [reflexivity|].
  cbn [Utils.values_since filter fst]. rewrite IH.
  destruct (datetime_ge_same_kind ts cutoff Hts) as (keep & ->).
  now destruct keep.
Qed.

Lemma values_since_mixed (cutoff : datetime) events :
  Exists (fun p => is_naive (fst p) <> is_naive cutoff) events ->
  Utils.values_since cutoff events = Raise TypeError.
Proof.
  induction 1 as [[ts value] rest Hts | [ts value] rest _ IH].
  - cbn [Utils.values_since]. now rewrite (datetime_ge_mixed ts cutoff Hts).
  - cbn [Utils.values_since]. rewrite IH.
    destruct (Utils.datetime_ge ts cutoff) as [keep|e] eqn:Hge; [reflexivity|].
    destruct ts, cutoff; simpl in Hge; congruence.
Qed.

End UtilsFacts.

(** X13.  [filter_recent_events] raises TypeError as soon as one timestamp
    is naive where the reference time is aware or the other way round, and
    otherwise returns the values of exactly the events for which
    [is_within_last_hour] is true, in order.  With the default reference
    time, which is the naive [datetime.utcnow()], the timestamps that the
    stores keep (all aware) make it raise unless the list is empty. *)
Theorem filter_recent_events_outcome
  (V : Type) (utcnow : Z) (events : list (datetime * V))
  (reference_time : option datetime) :
  let reference := Utils.or_utcnow utcnow reference_time in
  (Forall (fun p => is_naive (fst p) = is_naive reference) events ->
   Utils.filter_recent_events utcnow events reference_time
   = Ok (map snd
           (filter (fun p =>
                      match Utils.is_within_last_hour utcnow (fst p) reference_time with
                      | Ok true => true
                      | _ => false
                      end) events)))
  /\
  (Exists (fun p => is_naive (fst p) <> is_naive reference) events ->
   Utils.filter_recent_events utcnow events reference_time = Raise TypeError)
  /\
  (forall stored : list (event V),
     Utils.filter_recent_events utcnow (map as_pair stored) None
     = match stored with
       | [] => Ok []
       | _ :: _ => Raise TypeError
       end).
Proof.
  intros reference. unfold Utils.filter_recent_events, Utils.is_within_last_hour.
  fold reference. repeat split.
  - intros Hsame. apply values_since_ok.
    eapply Forall_impl; [|exact Hsame]. intros p Hp.
    now rewrite is_naive_sub_hour.
  - intros Hmixed. apply values_since_mixed.
    eapply Exists_impl; [|exact Hmixed]. intros p Hp.
    now rewrite is_naive_sub_hour.
  - intros [|e stored]; reflexivity.
Qed.

Lemma filter_recent_events_outcome_witness :
  Utils.filter_recent_events 0 [(Naive 5, 1%Q); (Aware (mk_aware 5 0), 2%Q)] None
  = Raise TypeError.
Proof.
  destruct (filter_recent_events_outcome Q 0
              [(Naive 5, 1%Q); (Aware (mk_aware 5 0), 2%Q)] None)
    as (_ & Hmixed & _).
  apply Hmixed. right. left. simpl. discriminate.
Defined.

(** X14.  On the timestamps that the stores keep and an aware reference
    time, the pipeline of app/utils.py, [calculate_statistics] after
    [filter_recent_events], returns the dictionary that the service returns
    for a summary at that reference time (the clean-up reading of the
    service being not after it). *)
Theorem utils_pipeline_is_the_summary
  (V : Type) (N : PyNumber V)
  (stored : list (event V)) (utcnow now1 now : Z) :
  now1 <= now ->
  Utils.filter_recent_events utcnow (map as_pair stored) (Some (Aware (now_utc now)))
  = Ok (map snd (included now stored))
  /\
  Utils.calculate_statistics (map snd (included now stored))
  = fst (EventService.get_statistics now1 now stored).
Proof.
  intros Hle. split.
  - unfold Utils.filter_recent_events. cbn [Utils.or_utcnow Utils.sub_hour].
    induction stored as [|e rest IH]; [reflexivity|].
    cbn [map Utils.values_since as_pair Utils.datetime_ge]. rewrite IH.
    unfold included. cbn [filter].
    change (dt_ge (fst e) (minus_hour (now_utc now))) with (in_window now e).
    now destruct (in_window now e).
  - rewrite get_statistics_included by exact Hle.
    unfold Utils.calculate_statistics, aggregate, sum_over_count.
    now destruct (map snd (included now stored)).
Qed.

Lemma utils_pipeline_is_the_summary_witness :
  Utils.calculate_statistics
    (map snd (included 7 [(mk_aware 1 0, 2%Q); (mk_aware 5 0, 4%Q)]))
  = fst (EventService.get_statistics 7 7 [(mk_aware 1 0, 2%Q); (mk_aware 5 0, 4%Q)]).
Proof.
  refine (proj2 (utils_pipeline_is_the_summary Q _
                   [(mk_aware 1 0, 2%Q); (mk_aware 5 0, 4%Q)] 0 7 7 _)).
  lia.
Defined.

(* ------------------------------------------------------------------ *)
(** * Witnesses on floats *)

Lemma float_summary_min_max_witness :
  let events := [(mk_aware 0 0, nan); (mk_aware 1 0, 1%float);
                 (mk_aware 2 0, 3%float)] in
  count (fst (EventService.get_statistics 5 5 events)) = 3%nat.
Proof.
  intros events.
  refine (proj1 (float_summary_min_max events 5 5 _ _ (or_introl eq_refl))).
  lia.
Defined.

Lemma stores_agree_on_count_min_max_witness :
  let calls := [Record 0 (Aware (mk_aware 0 0)) nan;
                Record 1 (Aware (mk_aware 1 0)) 1%float] in
  count (fst (EventService.get_statistics 2 2 (EventService.run calls [])))
  = count (fst (EventStore.get_recent_stats 2 (EventStore.run calls []))).
Proof.
  intros calls.
  refine (proj1 (stores_agree_on_count_min_max float _ _ calls 2 _)).
  simpl. lia.
Defined.

(* ------------------------------------------------------------------ *)
(** * What a record keeps *)

Lemma popleft_while_snoc_fresh {V : Type} (c : aware) (events : list (event V))
  (e : event V) :
  utc_instant c <= utc_instant (fst e) ->
  popleft_while c (events ++ [e]) = popleft_while c events ++ [e].
Proof.
  intros Hfresh. induction events as [|e0 rest IH]; cbn [app popleft_while].
  - unfold dt_lt. destruct (Z.ltb_spec (utc_instant (fst e)) (utc_instant c));
      [lia | reflexivity].
  - now destruct (dt_lt (fst e0) c).
Qed.

(** X15.  [add_event] never drops the event it is given when its timestamp
    is in the window of the clock: the event ends up last in the deque,
    behind what the clean-up keeps of the deque before.  An event with a
    stale timestamp is kept only behind an event that is not stale: added
    to a deque of stale events it is dropped at once, with all of them. *)
Theorem add_event_keeps_fresh_event
  (V : Type) (now : Z) (timestamp : datetime) (value : V)
  (events : list (event V)) :
  (in_window now (ensure_aware timestamp, value) = true ->
   EventService.add_event now timestamp value events
   = EventService._cleanup_old_events now events ++ [(ensure_aware timestamp, value)])
  /\
  (in_window now (ensure_aware timestamp, value) = false ->
   Forall (fun e => in_window now e = false) events ->
   EventService.add_event now timestamp value events = []).
Proof.
  unfold EventService.add_event, EventService._cleanup_old_events. split.
  - intros Hin. apply popleft_while_snoc_fresh.
    unfold in_window in Hin. rewrite cutoff_instant. now apply Z.leb_le.
  - intros Hout Hall. apply popleft_while_stale, Forall_app. split.
    + eapply Forall_impl; [|exact Hall]. intros e He.
      unfold stale. rewrite cutoff_instant. unfold in_window in He.
      now apply Z.leb_gt.
    + constructor; [|constructor].
      unfold stale. rewrite cutoff_instant. unfold in_window in Hout.
      now apply Z.leb_gt.
Qed.

Lemma add_event_keeps_fresh_event_witness :
  EventService.add_event (2 * hour) (Naive (2 * hour)) 3%Q
    [(mk_aware 0 0, 1%Q); (mk_aware hour 0, 2%Q)]
  = EventService._cleanup_old_events (2 * hour)
      [(mk_aware 0 0, 1%Q); (mk_aware hour 0, 2%Q)]
    ++ [(mk_aware (2 * hour) 0, 3%Q)].
Proof.
  refine (proj1 (add_event_keeps_fresh_event Q (2 * hour) (Naive (2 * hour)) 3%Q
                   [(mk_aware 0 0, 1%Q); (mk_aware hour 0, 2%Q)]) _).
  reflexivity.
Defined.
